(** * WAMR Arduino wrapper: runtime and module life cycle

    A shallow embedding of [src/WAMR.cpp] and [WAMR.h] (the Arduino wrapper
    around the WebAssembly Micro Runtime): the process-wide [WamrRuntime]
    statics, the per-object [WamrModule] controller, and the two call paths
    of the execution bridge.

    The bytecode engine ([wasm_runtime_*]), the allocator
    ([heap_caps_malloc], [malloc], [free]) and the thread library
    ([pthread_*]) are external collaborators.  They are taken as a
    parameter: an interface [Platform] over an abstract platform state.
    Every call that crosses this boundary is also appended to a ghost
    trace, so that statements such as "no engine call is attempted" or
    "every created execution environment is destroyed" can be read off
    the trace.

    The diagnostic output ([WAMR_LOG_E], [WAMR_LOG_D], [Serial]) is a
    one-way sink and is left out of the model. *)

From Stdlib Require Import NArith ZArith List String Ascii Bool Lia.
From ExtLib Require Import Structures.Monad Structures.MonadState.
From ExtLib Require Import Data.Monads.StateMonad.
Import ListNotations.
Import MonadNotation.
Local Open Scope monad_scope.
Local Open Scope string_scope.

(** ** Data *)

(** An engine or allocator handle is a non-null pointer; a C pointer that
    may be [nullptr] is an [option handle], with [None] for [nullptr]. *)
Definition handle := positive.
Definition ptr := option handle.

Definition is_null (p : ptr) : bool :=
  match p with
  | None => true
  | Some _ => false
  end.

(** [uint32_t] and [size_t] values are kept as [N]; the wrapper never does
    arithmetic on them, it only compares and stores them. *)
Definition uint32_t := N.

(** Constants of WAMR.h. *)
Definition WAMR_DEFAULT_HEAP_SIZE : N := 64 * 1024.
Definition WAMR_MIN_HEAP_SIZE : N := 16 * 1024.
Definition WAMR_MAX_HEAP_SIZE : N := 512 * 1024.
Definition WAMR_DEFAULT_STACK_SIZE : N := 16 * 1024.
Definition WAMR_DEFAULT_HEAP_POOL : N := 128 * 1024.
Definition WAMR_DEFAULT_THREAD_STACK : N := 32 * 1024.

(** [char error_buf[128]]: the buffer is read as a C string, so its
    content is a string of at most 127 characters. *)
Definition ERROR_BUF_SIZE : nat := 128.

(** [snprintf(error_buf, sizeof(error_buf), ...)] with the already
    formatted text [s]: at most 127 characters are stored. *)
Definition snprintf (s : string) : string :=
  substring 0 (ERROR_BUF_SIZE - 1) s.

(** The argument slots [uint32_t *argv]: [None] is [nullptr], [Some buf]
    is the caller's array.  Reading [argv[i]] goes through [read_slot]. *)
Definition argv_t := option (list uint32_t).

Definition read_slot (buf : list uint32_t) (i : nat) : uint32_t :=
  nth i buf 0%N.

(** The result of an engine stage that reports failure through the
    error buffer: a handle, or the diagnostic text. *)
Definition staged := (handle + string)%type.

(** ** The external collaborators *)

(** Calls that cross the boundary, with their arguments and results. *)
Inductive Call : Type :=
| E_heap_caps_malloc (size : N) (r : ptr)
| E_malloc (size : N) (r : ptr)
| E_free (buf : handle)
| E_wasm_runtime_full_init (buf : handle) (size : N) (r : bool)
| E_wasm_runtime_destroy
| E_wasm_runtime_load (size : N) (r : staged)
| E_wasm_runtime_instantiate (m : handle) (stack heap : N) (r : staged)
| E_wasm_runtime_deinstantiate (inst : handle)
| E_wasm_runtime_unload (m : handle)
| E_wasm_runtime_create_exec_env (inst : handle) (stack : N) (r : ptr)
| E_wasm_runtime_destroy_exec_env (env : handle)
| E_wasm_runtime_lookup_function (inst : handle) (name : string) (r : ptr)
| E_wasm_runtime_call_wasm (env func : handle) (argc : N) (r : bool)
| E_wasm_runtime_get_exception (inst : handle) (r : option string)
| E_pthread_attr_init (r : Z)
| E_pthread_attr_setstacksize (size : N) (r : Z)
| E_pthread_attr_setdetachstate
| E_pthread_create (r : Z)
| E_pthread_join
| E_pthread_attr_destroy.

(** Modelled from the spec: the engine, allocator and thread entry
    points are not part of the wrapper's sources; their shapes follow the
    external-interface list (compile and instantiate give a handle or an
    error text, lookup and context creation give a handle or null, call
    gives a boolean and rewrites the argument slots, the exception query
    gives a text or null).  Each operation may change the platform state. *)
Class Platform (P : Type) : Type := {
  ext_heap_caps_malloc : N -> P -> ptr * P;
  ext_malloc : N -> P -> ptr * P;
  ext_free : handle -> P -> P;
  ext_full_init : handle -> N -> P -> bool * P;
  ext_destroy : P -> P;
  ext_load : list Byte.byte -> N -> P -> staged * P;
  ext_instantiate : handle -> N -> N -> P -> staged * P;
  ext_deinstantiate : handle -> P -> P;
  ext_unload : handle -> P -> P;
  ext_create_exec_env : handle -> N -> P -> ptr * P;
  ext_destroy_exec_env : handle -> P -> P;
  ext_lookup_function : handle -> string -> P -> ptr * P;
  ext_call_wasm :
    handle -> handle -> N -> list uint32_t -> P -> (bool * list uint32_t) * P;
  ext_get_exception : handle -> P -> option string * P;
  ext_pthread_attr_init : P -> Z * P;
  ext_pthread_attr_setstacksize : N -> P -> Z * P;
  ext_pthread_create : P -> Z * P
}.

(** ** State *)

(** The static members of [WamrRuntime] and [WamrModule], the platform
    state and the ghost trace of boundary calls (oldest first). *)
Record World (P : Type) : Type := mkWorld {
  plat : P;
  calls : list Call;
  initialized : bool;
  global_heap_buf : ptr;
  error_msg : option string;
  thread_stack_size : N
}.
Arguments mkWorld {P}.
Arguments plat {P}.
Arguments calls {P}.
Arguments initialized {P}.
Arguments global_heap_buf {P}.
Arguments error_msg {P}.
Arguments thread_stack_size {P}.

(** The private members of a [WamrModule] object. *)
Record WamrModule : Type := mkWamrModule {
  module : ptr;
  module_inst : ptr;
  stack_size_for_exec_env : uint32_t;
  error_buf : string;
  last_result : uint32_t;
  loaded : bool
}.

(** A method of [WamrModule] runs on its object and on the world. *)
Record Frame (P : Type) : Type := mkFrame {
  this : WamrModule;
  world : World P
}.
Arguments mkFrame {P}.
Arguments this {P}.
Arguments world {P}.

(** Field updates. *)
Definition set_module (v : ptr) (m : WamrModule) : WamrModule :=
  mkWamrModule v (module_inst m) (stack_size_for_exec_env m)
               (error_buf m) (last_result m) (loaded m).
Definition set_module_inst (v : ptr) (m : WamrModule) : WamrModule :=
  mkWamrModule (module m) v (stack_size_for_exec_env m)
               (error_buf m) (last_result m) (loaded m).
Definition set_stack_size_for_exec_env (v : uint32_t) (m : WamrModule)
  : WamrModule :=
  mkWamrModule (module m) (module_inst m) v
               (error_buf m) (last_result m) (loaded m).
Definition set_error_buf (v : string) (m : WamrModule) : WamrModule :=
  mkWamrModule (module m) (module_inst m) (stack_size_for_exec_env m)
               v (last_result m) (loaded m).
Definition set_last_result (v : uint32_t) (m : WamrModule) : WamrModule :=
  mkWamrModule (module m) (module_inst m) (stack_size_for_exec_env m)
               (error_buf m) v (loaded m).
Definition set_loaded (v : bool) (m : WamrModule) : WamrModule :=
  mkWamrModule (module m) (module_inst m) (stack_size_for_exec_env m)
               (error_buf m) (last_result m) v.

Section Wrapper.
Context {P : Type} {PF : Platform P}.

Definition set_plat (v : P) (w : World P) : World P :=
  mkWorld v (calls w) (initialized w) (global_heap_buf w)
          (error_msg w) (thread_stack_size w).
Definition record_call (c : Call) (w : World P) : World P :=
  mkWorld (plat w) (calls w ++ [c]) (initialized w) (global_heap_buf w)
          (error_msg w) (thread_stack_size w).
Definition set_initialized (v : bool) (w : World P) : World P :=
  mkWorld (plat w) (calls w) v (global_heap_buf w)
          (error_msg w) (thread_stack_size w).
Definition set_global_heap_buf (v : ptr) (w : World P) : World P :=
  mkWorld (plat w) (calls w) (initialized w) v
          (error_msg w) (thread_stack_size w).
Definition set_error_msg (v : option string) (w : World P) : World P :=
  mkWorld (plat w) (calls w) (initialized w) (global_heap_buf w)
          v (thread_stack_size w).
Definition set_thread_stack_size (v : N) (w : World P) : World P :=
  mkWorld (plat w) (calls w) (initialized w) (global_heap_buf w)
          (error_msg w) v.

(** *** Monadic plumbing *)

Definition RT := state (World P).
Definition Method := state (Frame P).

(** A boundary call with a result, recorded in the trace. *)
Definition extern {A : Type} (f : P -> A * P) (ev : A -> Call) : RT A :=
  w <- get ;;
  let (a, p') := f (plat w) in
  put (record_call (ev a) (set_plat p' w)) ;;
  ret a.

(** A boundary call without a result. *)
Definition extern_ (f : P -> P) (ev : Call) : RT unit :=
  w <- get ;;
  put (record_call ev (set_plat (f (plat w)) w)).

Definition update_world (f : World P -> World P) : RT unit :=
  w <- get ;; put (f w).

(** Run a computation on the world from inside a method. *)
Definition in_world {A : Type} (c : RT A) : Method A :=
  fr <- get ;;
  let (a, w') := runState c (world fr) in
  put (mkFrame (this fr) w') ;;
  ret a.

Definition self : Method WamrModule := gets this.

Definition update (f : WamrModule -> WamrModule) : Method unit :=
  fr <- get ;; put (mkFrame (f (this fr)) (world fr)).

(** *** The boundary calls *)

Definition heap_caps_malloc (size : N) : RT ptr :=
  extern (ext_heap_caps_malloc size) (E_heap_caps_malloc size).
Definition malloc (size : N) : RT ptr :=
  extern (ext_malloc size) (E_malloc size).
Definition free (buf : handle) : RT unit :=
  extern_ (ext_free buf) (E_free buf).
Definition wasm_runtime_full_init (buf : handle) (size : N) : RT bool :=
  extern (ext_full_init buf size) (E_wasm_runtime_full_init buf size).
Definition wasm_runtime_destroy : RT unit :=
  extern_ ext_destroy E_wasm_runtime_destroy.
Definition wasm_runtime_load (bytes : list Byte.byte) (size : N)
  : RT staged :=
  extern (ext_load bytes size) (E_wasm_runtime_load size).
Definition wasm_runtime_instantiate (m : handle) (stack heap : N)
  : RT staged :=
  extern (ext_instantiate m stack heap)
         (E_wasm_runtime_instantiate m stack heap).
Definition wasm_runtime_deinstantiate (inst : handle) : RT unit :=
  extern_ (ext_deinstantiate inst) (E_wasm_runtime_deinstantiate inst).
Definition wasm_runtime_unload (m : handle) : RT unit :=
  extern_ (ext_unload m) (E_wasm_runtime_unload m).
Definition wasm_runtime_create_exec_env (inst : handle) (stack : N)
  : RT ptr :=
  extern (ext_create_exec_env inst stack)
         (E_wasm_runtime_create_exec_env inst stack).
Definition wasm_runtime_destroy_exec_env (env : handle) : RT unit :=
  extern_ (ext_destroy_exec_env env) (E_wasm_runtime_destroy_exec_env env).
Definition wasm_runtime_lookup_function (inst : handle) (name : string)
  : RT ptr :=
  extern (ext_lookup_function inst name)
         (E_wasm_runtime_lookup_function inst name).
Definition wasm_runtime_call_wasm (env func : handle) (argc : N)
           (buf : list uint32_t) : RT (bool * list uint32_t) :=
  extern (ext_call_wasm env func argc buf)
         (fun r => E_wasm_runtime_call_wasm env func argc (fst r)).
Definition wasm_runtime_get_exception (inst : handle)
  : RT (option string) :=
  extern (ext_get_exception inst) (E_wasm_runtime_get_exception inst).
Definition pthread_attr_init : RT Z :=
  extern ext_pthread_attr_init E_pthread_attr_init.
Definition pthread_attr_setstacksize (size : N) : RT Z :=
  extern (ext_pthread_attr_setstacksize size)
         (E_pthread_attr_setstacksize size).
Definition pthread_attr_setdetachstate : RT unit :=
  extern_ (fun p => p) E_pthread_attr_setdetachstate.
Definition pthread_create : RT Z :=
  extern ext_pthread_create E_pthread_create.
Definition pthread_join : RT unit :=
  extern_ (fun p => p) E_pthread_join.
Definition pthread_attr_destroy : RT unit :=
  extern_ (fun p => p) E_pthread_attr_destroy.

(** *** WamrRuntime *)

(** [WamrRuntime::printMemoryUsage] only writes to the diagnostic sink. *)
Definition printMemoryUsage : RT unit := ret tt.

Definition isInitialized : RT bool := gets initialized.

Definition WamrRuntime_getError : RT (option string) := gets error_msg.

Definition begin (heap_pool_size : uint32_t) : RT bool :=
  w <- get ;;
  if initialized w then ret true
  else if (heap_pool_size <? WAMR_MIN_HEAP_SIZE)%N then
    update_world
      (set_error_msg (Some "Heap pool size too small (min 16KB)")) ;;
    ret false
  else
    p <- heap_caps_malloc heap_pool_size ;;
    update_world (set_global_heap_buf p) ;;
    (if is_null p then
       q <- malloc heap_pool_size ;;
       update_world (set_global_heap_buf q)
     else ret tt) ;;
    w <- get ;;
    match global_heap_buf w with
    | None =>
        update_world
          (set_error_msg (Some "Failed to allocate global heap")) ;;
        ret false
    | Some buf =>
        ok <- wasm_runtime_full_init buf heap_pool_size ;;
        if negb ok then
          update_world
            (set_error_msg (Some "Failed to initialize WAMR runtime")) ;;
          free buf ;;
          update_world (set_global_heap_buf None) ;;
          ret false
        else
          update_world (set_initialized true) ;;
          printMemoryUsage ;;
          ret true
    end.

(** [WamrRuntime::end] ([end] is a keyword here, hence the underscore). *)
Definition end_ : RT unit :=
  w <- get ;;
  if negb (initialized w) then ret tt
  else
    wasm_runtime_destroy ;;
    match global_heap_buf w with
    | Some buf =>
        free buf ;;
        update_world (set_global_heap_buf None)
    | None => ret tt
    end ;;
    update_world (set_initialized false).

(** *** WamrModule *)

(** The constructor [WamrModule::WamrModule()]. *)
Definition WamrModule_ctor : WamrModule :=
  mkWamrModule None None 0%N "" 0%N false.

Definition getResult (m : WamrModule) : uint32_t := last_result m.

(** [error_buf[0] != '\0' ? error_buf : nullptr] *)
Definition getError (m : WamrModule) : option string :=
  match error_buf m with
  | EmptyString => None
  | String _ _ => Some (error_buf m)
  end.

Definition isLoaded (m : WamrModule) : bool :=
  negb (is_null (module_inst m)).

Definition getInstance (m : WamrModule) : ptr := module_inst m.

Definition setThreadStackSize (stack_size : N) : RT unit :=
  update_world (set_thread_stack_size stack_size).

Definition unload : Method unit :=
  m <- self ;;
  match module_inst m with
  | Some inst =>
      in_world (wasm_runtime_deinstantiate inst) ;;
      update (set_module_inst None)
  | None => ret tt
  end ;;
  m <- self ;;
  match module m with
  | Some unit_ =>
      in_world (wasm_runtime_unload unit_) ;;
      update (set_module None)
  | None => ret tt
  end ;;
  update (set_loaded false) ;;
  update (set_stack_size_for_exec_env 0%N) ;;
  update (set_error_buf "").

(** The destructor [WamrModule::~WamrModule()]. *)
Definition WamrModule_dtor : Method unit := unload.

(** An engine stage called with [error_buf, sizeof(error_buf)]: on
    failure the engine leaves its diagnostic in the buffer and returns
    null. *)
Definition staged_call (c : RT staged) : Method ptr :=
  r <- in_world c ;;
  match r with
  | inl h => ret (Some h)
  | inr msg => update (set_error_buf (snprintf msg)) ;; ret None
  end.

Definition load (wasm_bytes : list Byte.byte)
           (size stack_size heap_size : uint32_t) : Method bool :=
  init <- in_world isInitialized ;;
  if negb init then
    update (set_error_buf (snprintf "WAMR runtime not initialized")) ;;
    ret false
  else
    unload ;;
    unit_ <- staged_call (wasm_runtime_load wasm_bytes size) ;;
    update (set_module unit_) ;;
    match unit_ with
    | None => ret false
    | Some u =>
        inst <- staged_call
                  (wasm_runtime_instantiate u stack_size heap_size) ;;
        update (set_module_inst inst) ;;
        match inst with
        | None =>
            in_world (wasm_runtime_unload u) ;;
            update (set_module None) ;;
            ret false
        | Some _ =>
            update (set_stack_size_for_exec_env stack_size) ;;
            update (set_loaded true) ;;
            ret true
        end
    end.

(** [wasm_runtime_call_wasm(exec_env, func, argc, argv)]: the engine
    rewrites the caller's slots; with a null [argv] there is nothing to
    rewrite. *)
Definition call_wasm (env func : handle) (argc : uint32_t) (argv : argv_t)
  : RT (bool * argv_t) :=
  match argv with
  | Some buf =>
      r <- wasm_runtime_call_wasm env func argc buf ;;
      ret (fst r, Some (snd r))
  | None =>
      r <- wasm_runtime_call_wasm env func argc [] ;;
      ret (fst r, None)
  end.

(** The result is the returned flag together with the caller's argument
    slots as the call leaves them.  The guard [!loaded || !module_inst]
    is the last branch of the first match. *)
Definition callFunctionInternal (func_name : string) (argc : uint32_t)
           (argv : argv_t) : Method (bool * argv_t) :=
  m <- self ;;
  match loaded m, module_inst m with
  | true, Some inst =>
      env <- in_world (wasm_runtime_create_exec_env
                         inst (stack_size_for_exec_env m)) ;;
      match env with
      | None =>
          update (set_error_buf
                    (snprintf "Failed to create execution environment")) ;;
          ret (false, argv)
      | Some exec_env =>
          f <- in_world (wasm_runtime_lookup_function inst func_name) ;;
          match f with
          | None =>
              update (set_error_buf
                        (snprintf ("Function '" ++ func_name
                                                ++ "' not found"))) ;;
              in_world (wasm_runtime_destroy_exec_env exec_env) ;;
              ret (false, argv)
          | Some func =>
              r <- in_world (call_wasm exec_env func argc argv) ;;
              in_world (wasm_runtime_destroy_exec_env exec_env) ;;
              if negb (fst r) then
                exception <- in_world (wasm_runtime_get_exception inst) ;;
                match exception with
                | Some e =>
                    update (set_error_buf (snprintf ("Exception: " ++ e)))
                | None =>
                    update (set_error_buf (snprintf "Function call failed"))
                end ;;
                ret (false, snd r)
              else
                match snd r with
                | Some buf =>
                    if (0 <? argc)%N then
                      update (set_last_result (read_slot buf 0))
                    else ret tt
                | None => ret tt
                end ;;
                ret (true, snd r)
          end
      end
  | _, _ =>
      update (set_error_buf (snprintf "Module not loaded")) ;;
      ret (false, argv)
  end.

Definition callFunctionRaw (func_name : string) (argc : uint32_t)
           (argv : argv_t) : Method (bool * argv_t) :=
  callFunctionInternal func_name argc argv.

(** [struct WasmCallContext]; its [module] member is the object the
    method runs on. *)
Record WasmCallContext : Type := mkWasmCallContext {
  ctx_func_name : string;
  ctx_argc : uint32_t;
  ctx_argv : argv_t;
  ctx_success : bool
}.

Definition wasm_thread_wrapper (ctx : WasmCallContext)
  : Method WasmCallContext :=
  r <- callFunctionInternal (ctx_func_name ctx) (ctx_argc ctx)
                            (ctx_argv ctx) ;;
  ret (mkWasmCallContext (ctx_func_name ctx) (ctx_argc ctx)
                         (snd r) (fst r)).

(** The safe path.  The worker thread is created and joined before the
    call returns, so its body is run in sequence between
    [pthread_create] and [pthread_join]. *)
Definition callFunction (func_name : string) (argc : uint32_t)
           (argv : argv_t) : Method (bool * argv_t) :=
  let ctx := mkWasmCallContext func_name argc argv false in
  rc <- in_world pthread_attr_init ;;
  if negb (rc =? 0)%Z then
    update (set_error_buf
              (snprintf "Failed to initialize pthread attributes")) ;;
    ret (false, argv)
  else
    size <- gets (fun fr => thread_stack_size (world fr)) ;;
    rc <- in_world (pthread_attr_setstacksize size) ;;
    if negb (rc =? 0)%Z then
      update (set_error_buf
                (snprintf "Failed to set pthread stack size")) ;;
      in_world pthread_attr_destroy ;;
      ret (false, argv)
    else
      in_world pthread_attr_setdetachstate ;;
      rc <- in_world pthread_create ;;
      if negb (rc =? 0)%Z then
        update (set_error_buf
                  (snprintf "Failed to create pthread for WASM execution")) ;;
        in_world pthread_attr_destroy ;;
        ret (false, argv)
      else
        ctx' <- wasm_thread_wrapper ctx ;;
        in_world pthread_join ;;
        in_world pthread_attr_destroy ;;
        ret (ctx_success ctx', ctx_argv ctx').

End Wrapper.


(** ** Reading the trace *)

(** Calls into the bytecode engine, as opposed to the allocator and the
    thread library. *)
Definition is_engine_call (c : Call) : bool :=
  match c with
  | E_wasm_runtime_full_init _ _ _ | E_wasm_runtime_destroy
  | E_wasm_runtime_load _ _ | E_wasm_runtime_instantiate _ _ _ _
  | E_wasm_runtime_deinstantiate _ | E_wasm_runtime_unload _
  | E_wasm_runtime_create_exec_env _ _ _
  | E_wasm_runtime_destroy_exec_env _
  | E_wasm_runtime_lookup_function _ _ _
  | E_wasm_runtime_call_wasm _ _ _ _
  | E_wasm_runtime_get_exception _ _ => true
  | _ => false
  end.

Definition is_create_exec_env (c : Call) : bool :=
  match c with
  | E_wasm_runtime_create_exec_env _ _ _ => true
  | _ => false
  end.

Definition is_lookup_function (c : Call) : bool :=
  match c with
  | E_wasm_runtime_lookup_function _ _ _ => true
  | _ => false
  end.

Fixpoint remove_first (e : handle) (l : list handle) : list handle :=
  match l with
  | [] => []
  | x :: r => if Pos.eqb e x then r else x :: remove_first e r
  end.

(** The execution environments that exist after a call, given those that
    existed before it. *)
Definition live_step (live : list handle) (c : Call) : list handle :=
  match c with
  | E_wasm_runtime_create_exec_env _ _ (Some e) => e :: live
  | E_wasm_runtime_destroy_exec_env e => remove_first e live
  | _ => live
  end.

(** The execution environments that exist at the end of a trace. *)
Definition live_exec_envs (tr : list Call) : list handle :=
  fold_left live_step tr [].

(** The execution environments a trace has created. *)
Fixpoint created_exec_envs (tr : list Call) : list handle :=
  match tr with
  | [] => []
  | E_wasm_runtime_create_exec_env _ _ (Some e) :: r =>
      e :: created_exec_envs r
  | _ :: r => created_exec_envs r
  end.

(** The calls a computation has added to the trace [before]. *)
Definition emitted (before after : list Call) : list Call :=
  skipn (List.length before) after.
Arguments emitted : simpl never.

(** ** A small platform to run the wrapper on *)

(** The platform hands out fresh handles from a counter; flags decide
    which stages succeed.  Its engine exports one function, [add], which
    leaves the 32-bit sum of the first two slots in slot 0.  Setting a
    thread stack below the platform minimum is refused, and creating a
    thread fails when there is no memory for its stack. *)
Record Sim : Type := mkSim {
  sim_next : positive;
  sim_psram : bool;
  sim_instantiate_ok : bool;
  sim_exec_env_ok : bool;
  sim_thread_memory : bool
}.

Definition sim_fresh (s : Sim) : handle * Sim :=
  (sim_next s,
   mkSim (Pos.succ (sim_next s)) (sim_psram s) (sim_instantiate_ok s)
         (sim_exec_env_ok s) (sim_thread_memory s)).

Definition sim_fresh_if (b : bool) (s : Sim) : ptr * Sim :=
  if b then let (h, s') := sim_fresh s in (Some h, s') else (None, s).

Definition sim_staged (b : bool) (msg : string) (s : Sim) : staged * Sim :=
  if b then let (h, s') := sim_fresh s in (inl h, s') else (inr msg, s).

Definition wasm_magic (bytes : list Byte.byte) : bool :=
  match bytes with
  | Byte.x00 :: Byte.x61 :: Byte.x73 :: Byte.x6d :: _ => true
  | _ => false
  end.

Definition sim_add : handle := 1%positive.

Definition PTHREAD_STACK_MIN : N := 768.
Definition EINVAL : Z := 22.
Definition ENOMEM : Z := 12.

Definition sim_call (func : handle) (buf : list uint32_t)
  : bool * list uint32_t :=
  match buf with
  | a :: b :: rest =>
      if Pos.eqb func sim_add
      then (true, ((a + b) mod 2 ^ 32)%N :: b :: rest)
      else (false, buf)
  | _ => (false, buf)
  end.

#[export] Instance Platform_Sim : Platform Sim := {
  ext_heap_caps_malloc := fun _ s => sim_fresh_if (sim_psram s) s;
  ext_malloc := fun _ s => sim_fresh_if true s;
  ext_free := fun _ s => s;
  ext_full_init := fun _ _ s => (true, s);
  ext_destroy := fun s => s;
  ext_load := fun bytes _ s =>
    sim_staged (wasm_magic bytes) "magic header not detected" s;
  ext_instantiate := fun _ _ _ s =>
    sim_staged (sim_instantiate_ok s) "allocate memory failed" s;
  ext_deinstantiate := fun _ s => s;
  ext_unload := fun _ s => s;
  ext_create_exec_env := fun _ _ s => sim_fresh_if (sim_exec_env_ok s) s;
  ext_destroy_exec_env := fun _ s => s;
  ext_lookup_function := fun _ name s =>
    (if String.eqb name "add" then Some sim_add else None, s);
  ext_call_wasm := fun _ func _ buf s => (sim_call func buf, s);
  ext_get_exception := fun _ s => (Some "invalid argument", s);
  ext_pthread_attr_init := fun s => (0%Z, s);
  ext_pthread_attr_setstacksize := fun size s =>
    (if (size <? PTHREAD_STACK_MIN)%N then EINVAL else 0%Z, s);
  ext_pthread_create := fun s =>
    (if sim_thread_memory s then 0%Z else ENOMEM, s)
}.

(** The world at process start, on a platform where everything works. *)
Definition sim0 : Sim := mkSim 10%positive true true true true.

Definition world0 : World Sim :=
  mkWorld sim0 [] false None None WAMR_DEFAULT_THREAD_STACK.

(** A minimal binary: the magic header and version 1. *)
Definition tiny_wasm : list Byte.byte :=
  [Byte.x00; Byte.x61; Byte.x73; Byte.x6d;
   Byte.x01; Byte.x00; Byte.x00; Byte.x00].

(** The world after a successful [begin], and a controller with the
    binary loaded in it. *)
Definition world_begun : World Sim :=
  execState (begin WAMR_DEFAULT_HEAP_POOL) world0.

Definition frame_loaded : Frame Sim :=
  execState (load tiny_wasm 8%N WAMR_DEFAULT_STACK_SIZE
                  WAMR_DEFAULT_HEAP_SIZE)
            (mkFrame WamrModule_ctor world_begun).

(** The controller with its platform replaced, to run it on a platform
    where a chosen stage fails. *)
Definition on_platform (s : Sim) (fr : Frame Sim) : Frame Sim :=
  mkFrame (this fr) (set_plat s (world fr)).

(** A fresh controller in the begun world, and the loaded controller
    after a call to a function the module does not export. *)
Definition frame_new : Frame Sim := mkFrame WamrModule_ctor world_begun.


(** Platforms on which one stage fails: no memory to instantiate, no
    memory for an execution environment, no memory for a thread stack. *)
Definition sim_no_instance : Sim := mkSim 11%positive true false true true.
Definition sim_no_exec_env : Sim := mkSim 13%positive true true false true.
Definition sim_no_thread : Sim := mkSim 13%positive true true true false.

(** ** The controller invariant *)

(** An instance exists only together with its compiled unit, and the
    [loaded] flag says whether there is an instance. *)
Definition controller_inv (m : WamrModule) : Prop :=
  (module_inst m <> None -> module m <> None)
  /\ loaded m = isLoaded m.

(** The messages the safe path leaves when it cannot set up its thread. *)
Definition thread_setup_messages : list string :=
  ["Failed to initialize pthread attributes";
   "Failed to set pthread stack size";
   "Failed to create pthread for WASM execution"].

Definition no_engine_call (tr : list Call) : bool :=
  forallb (fun c => negb (is_engine_call c)) tr.

(** ** Resource accounting on the trace *)

(** What the trace says is still held: heap buffers, compiled units,
    instances and execution environments by handle, and how many engine
    initialisations, thread attribute objects and worker threads are
    outstanding. *)
Record Res : Type := mkRes {
  r_bufs : list handle;
  r_engine : nat;
  r_units : list handle;
  r_insts : list handle;
  r_envs : list handle;
  r_attrs : nat;
  r_threads : nat
}.

Definition res0 : Res := mkRes [] 0 [] [] [] 0 0.

Definition hold_buf (b : handle) (r : Res) : Res :=
  mkRes (b :: r_bufs r) (r_engine r) (r_units r) (r_insts r) (r_envs r)
        (r_attrs r) (r_threads r).
Definition drop_buf (b : handle) (r : Res) : Res :=
  mkRes (remove_first b (r_bufs r)) (r_engine r) (r_units r) (r_insts r)
        (r_envs r) (r_attrs r) (r_threads r).
Definition hold_engine (r : Res) : Res :=
  mkRes (r_bufs r) (S (r_engine r)) (r_units r) (r_insts r) (r_envs r)
        (r_attrs r) (r_threads r).
Definition drop_engine (r : Res) : Res :=
  mkRes (r_bufs r) (Nat.pred (r_engine r)) (r_units r) (r_insts r)
        (r_envs r) (r_attrs r) (r_threads r).
Definition hold_unit (u : handle) (r : Res) : Res :=
  mkRes (r_bufs r) (r_engine r) (u :: r_units r) (r_insts r) (r_envs r)
        (r_attrs r) (r_threads r).
Definition drop_unit (u : handle) (r : Res) : Res :=
  mkRes (r_bufs r) (r_engine r) (remove_first u (r_units r)) (r_insts r)
        (r_envs r) (r_attrs r) (r_threads r).
Definition hold_inst (i : handle) (r : Res) : Res :=
  mkRes (r_bufs r) (r_engine r) (r_units r) (i :: r_insts r) (r_envs r)
        (r_attrs r) (r_threads r).
Definition drop_inst (i : handle) (r : Res) : Res :=
  mkRes (r_bufs r) (r_engine r) (r_units r) (remove_first i (r_insts r))
        (r_envs r) (r_attrs r) (r_threads r).
Definition hold_env (e : handle) (r : Res) : Res :=
  mkRes (r_bufs r) (r_engine r) (r_units r) (r_insts r) (e :: r_envs r)
        (r_attrs r) (r_threads r).
Definition drop_env (e : handle) (r : Res) : Res :=
  mkRes (r_bufs r) (r_engine r) (r_units r) (r_insts r)
        (remove_first e (r_envs r)) (r_attrs r) (r_threads r).
Definition hold_attr (r : Res) : Res :=
  mkRes (r_bufs r) (r_engine r) (r_units r) (r_insts r) (r_envs r)
        (S (r_attrs r)) (r_threads r).
Definition drop_attr (r : Res) : Res :=
  mkRes (r_bufs r) (r_engine r) (r_units r) (r_insts r) (r_envs r)
        (Nat.pred (r_attrs r)) (r_threads r).
Definition hold_thread (r : Res) : Res :=
  mkRes (r_bufs r) (r_engine r) (r_units r) (r_insts r) (r_envs r)
        (r_attrs r) (S (r_threads r)).
Definition drop_thread (r : Res) : Res :=
  mkRes (r_bufs r) (r_engine r) (r_units r) (r_insts r) (r_envs r)
        (r_attrs r) (Nat.pred (r_threads r)).

(** The effect of one boundary call on what is held.  A call that
    reports failure acquires nothing. *)
Definition res_step (r : Res) (c : Call) : Res :=
  match c with
  | E_heap_caps_malloc _ (Some b) => hold_buf b r
  | E_malloc _ (Some b) => hold_buf b r
  | E_free b => drop_buf b r
  | E_wasm_runtime_full_init _ _ true => hold_engine r
  | E_wasm_runtime_destroy => drop_engine r
  | E_wasm_runtime_load _ (inl u) => hold_unit u r
  | E_wasm_runtime_unload u => drop_unit u r
  | E_wasm_runtime_instantiate _ _ _ (inl i) => hold_inst i r
  | E_wasm_runtime_deinstantiate i => drop_inst i r
  | E_wasm_runtime_create_exec_env _ _ (Some e) => hold_env e r
  | E_wasm_runtime_destroy_exec_env e => drop_env e r
  | E_pthread_attr_init 0%Z => hold_attr r
  | E_pthread_attr_destroy => drop_attr r
  | E_pthread_create 0%Z => hold_thread r
  | E_pthread_join => drop_thread r
  | _ => r
  end.

(** What is held at the end of a trace. *)
Definition resources (tr : list Call) : Res := fold_left res_step tr res0.

Definition is_malloc_call (c : Call) : bool :=
  match c with
  | E_malloc _ _ => true
  | _ => false
  end.

Definition is_pthread_call (c : Call) : bool :=
  match c with
  | E_pthread_attr_init _ | E_pthread_attr_setstacksize _ _
  | E_pthread_attr_setdetachstate | E_pthread_create _
  | E_pthread_join | E_pthread_attr_destroy => true
  | _ => false
  end.

(** ** Further invariants *)

(** The runtime is initialized exactly when it holds its heap buffer. *)
Definition runtime_inv {P : Type} (w : World P) : Prop :=
  initialized w = negb (is_null (global_heap_buf w)).

(** The error buffer holds a C string that fits its 128 bytes. *)
Definition error_buf_fits (m : WamrModule) : Prop :=
  String.length (error_buf m) <= ERROR_BUF_SIZE - 1.

(** The runtime statics two worlds agree on. *)
Definition same_statics {P : Type} (w w' : World P) : Prop :=
  initialized w' = initialized w
  /\ global_heap_buf w' = global_heap_buf w
  /\ error_msg w' = error_msg w
  /\ thread_stack_size w' = thread_stack_size w.

(** An operation that leaves the controller's handles, the runtime
    statics and everything held as they were. *)
Definition preserves_holdings {P : Type} (fr fr' : Frame P) : Prop :=
  module (this fr') = module (this fr)
  /\ module_inst (this fr') = module_inst (this fr)
  /\ same_statics (world fr) (world fr')
  /\ resources (calls (world fr')) = resources (calls (world fr)).

(** Releasing a handle that may be null. *)
Definition drop_inst_if (p : ptr) (r : Res) : Res :=
  match p with
  | Some i => drop_inst i r
  | None => r
  end.
Definition drop_unit_if (p : ptr) (r : Res) : Res :=
  match p with
  | Some u => drop_unit u r
  | None => r
  end.

(** ** Callers of the wrapper *)

(** The array [memory_test_wasm] of examples/memory_test and the length
    the sketch passes with it. *)
Definition memory_test_wasm : list Byte.byte :=
  [Byte.x00; Byte.x61; Byte.x73; Byte.x6d; Byte.x01; Byte.x00;
   Byte.x00; Byte.x00; Byte.x01; Byte.x08; Byte.x02; Byte.x60;
   Byte.x00; Byte.x01; Byte.x7f; Byte.x60; Byte.x01; Byte.x7f;
   Byte.x01; Byte.x7f; Byte.x03; Byte.x03; Byte.x02; Byte.x00;
   Byte.x01; Byte.x05; Byte.x03; Byte.x01; Byte.x00; Byte.x01;
   Byte.x07; Byte.x1e; Byte.x02; Byte.x0b; Byte.x67; Byte.x65;
   Byte.x74; Byte.x5f; Byte.x6d; Byte.x65; Byte.x6d; Byte.x73;
   Byte.x69; Byte.x7a; Byte.x65; Byte.x00; Byte.x00; Byte.x09;
   Byte.x66; Byte.x69; Byte.x62; Byte.x6f; Byte.x6e; Byte.x61;
   Byte.x63; Byte.x63; Byte.x69; Byte.x00; Byte.x01; Byte.x0a;
   Byte.x2b; Byte.x02; Byte.x07; Byte.x00; Byte.x3f; Byte.x00;
   Byte.x41; Byte.x10; Byte.x6c; Byte.x0b; Byte.x20; Byte.x00;
   Byte.x20; Byte.x00; Byte.x41; Byte.x02; Byte.x49; Byte.x04;
   Byte.x40; Byte.x0f; Byte.x0b; Byte.x20; Byte.x00; Byte.x41;
   Byte.x01; Byte.x6b; Byte.x10; Byte.x01; Byte.x20; Byte.x00;
   Byte.x41; Byte.x02; Byte.x6b; Byte.x10; Byte.x01; Byte.x6a;
   Byte.x0b].

Definition memory_test_wasm_len : uint32_t := 93%N.

Section Callers.
Context {P : Type} {PF : Platform P}.

(** A local [WamrModule] object: constructed on entry to its scope,
    destroyed when the scope is left. *)
Definition module_scope {A : Type} (body : Method A) : RT A :=
  w <- get ;;
  let (a, fr) := runState (a <- body ;; WamrModule_dtor ;; ret a)
                          (mkFrame WamrModule_ctor w) in
  put (world fr) ;;
  ret a.

(** The loop over [test_values] in [testWithHeapSize]; each round has
    its own one-slot argument array. *)
Fixpoint fibonacci_rounds (test_values : list uint32_t) : Method unit :=
  match test_values with
  | [] => ret tt
  | n :: rest =>
      callFunction "fibonacci" 1%N (Some [n]) ;;
      fibonacci_rounds rest
  end.

(** [testWithHeapSize] of examples/memory_test, without its printing and
    timing. *)
Definition testWithHeapSize (runtime_heap module_heap : uint32_t)
  : RT unit :=
  ok <- begin runtime_heap ;;
  if negb ok then
    WamrRuntime_getError ;;
    ret tt
  else
    module_scope
      (let stack_size := (16 * 1024)%N in
       ok <- load memory_test_wasm memory_test_wasm_len
                  stack_size module_heap ;;
       if negb ok then
         in_world end_
       else
         callFunction "get_memsize" 0%N None ;;
         fibonacci_rounds [10; 15; 20; 25]%N ;;
         unload ;;
         in_world end_).

(** The loop of [raw_api_thread] of the threading example, without its
    printing and timing: round [i] calls [add] with the slots
    [{i, i + 1}] and the loop is left at the first failing call.  [i]
    counts up from 0 and stays below [iterations], so its conversion to
    [uint32_t] changes nothing. *)
Fixpoint raw_api_rounds (remaining : nat) (i : Z) : Method unit :=
  match remaining with
  | O => ret tt
  | S k =>
      r <- callFunctionRaw "add" 2%N (Some [Z.to_N i; Z.to_N (i + 1)]) ;;
      if negb (fst r) then ret tt
      else raw_api_rounds k (i + 1)%Z
  end.

Definition raw_api_thread (iterations : Z) : Method unit :=
  raw_api_rounds (Z.to_nat iterations) 0%Z.

(** The world after the three thread set-up calls have succeeded. *)
Definition after_thread_start (w : World P) (p3 : P) : World P :=
  record_call
    (E_pthread_create 0%Z)
    (record_call
       E_pthread_attr_setdetachstate
       (record_call
          (E_pthread_attr_setstacksize (thread_stack_size w) 0%Z)
          (record_call (E_pthread_attr_init 0%Z) (set_plat p3 w)))).

(** The world after the worker has been joined and the attribute object
    destroyed. *)
Definition after_thread_end (w : World P) : World P :=
  record_call E_pthread_attr_destroy (record_call E_pthread_join w).

End Callers.

(** ** Further starting points on the small platform *)

(** The world after a [begin] that was refused (1 KB pool), a controller
    before any [begin], and the platform state the loaded controller
    runs on with one more handle handed out. *)
Definition world_refused : World Sim := execState (begin 1024%N) world0.

Definition frame_unbegun : Frame Sim := mkFrame WamrModule_ctor world0.



(** ** Properties of the wrapper on every platform *)

Section Properties.
Context {P : Type} {PF : Platform P}.

(** *** Plumbing lemmas *)

Lemma emitted_app (tr seg : list Call) : emitted tr (tr ++ seg) = seg.
Proof.
  unfold emitted. induction tr as [|c tr IH]; simpl; [reflexivity | exact IH].
Qed.

Lemma emitted_snoc3 (tr : list Call) (a b c : Call) :
  emitted tr (((tr ++ [a]) ++ [b]) ++ [c]) = [a; b; c].
Proof. rewrite <- !app_assoc. apply emitted_app. Qed.

Lemma emitted_same (tr : list Call) : emitted tr tr = [].
Proof.
  rewrite <- (app_nil_r tr) at 2. apply emitted_app.
Qed.

(** *** The runtime life cycle *)

(** C4: once the runtime is initialized, [begin] with any pool size, also
    one below the minimum, returns success and leaves the whole world as
    it was: the same heap buffer, [initialized] still true, no call to
    the allocator or to the engine. *)
Theorem begin_when_initialized_is_noop
        (w : World P) (heap_pool_size : uint32_t) :
  initialized w = true ->
  runState (begin heap_pool_size) w = (true, w).
Proof.
  intros Hinit. unfold begin. cbn. rewrite Hinit. reflexivity.
Qed.

(** C5: on a runtime that is not initialized, [begin] with a pool size
    below [WAMR_MIN_HEAP_SIZE] (16 KB) fails, records the too-small
    message as the runtime error, and changes nothing else:
    [isInitialized] still answers false, no buffer is held, and no call
    reaches the allocator or the engine. *)
Theorem begin_rejects_small_pool (w : World P) (heap_pool_size : uint32_t) :
  initialized w = false ->
  (heap_pool_size < WAMR_MIN_HEAP_SIZE)%N ->
  let r := runState (begin heap_pool_size) w in
  r = (false,
       set_error_msg (Some "Heap pool size too small (min 16KB)") w)
  /\ WAMR_MIN_HEAP_SIZE = 16384%N
  /\ evalState WamrRuntime_getError (snd r)
     = Some "Heap pool size too small (min 16KB)"
  /\ evalState isInitialized (snd r) = false
  /\ global_heap_buf (snd r) = global_heap_buf w
  /\ plat (snd r) = plat w
  /\ emitted (calls w) (calls (snd r)) = [].
Proof.
  intros Hinit Hsmall.
  assert (E : runState (begin heap_pool_size) w
              = (false,
                 set_error_msg
                   (Some "Heap pool size too small (min 16KB)") w)).
  { unfold begin. cbn -[N.ltb WAMR_MIN_HEAP_SIZE]. rewrite Hinit.
    apply N.ltb_lt in Hsmall. rewrite Hsmall. reflexivity. }
  cbv zeta. rewrite E. cbn.
  repeat split; try assumption. apply emitted_same.
Qed.

(** *** Unloading *)

Lemma unload_result (fr : Frame P) :
  module (this (execState unload fr)) = None
  /\ module_inst (this (execState unload fr)) = None
  /\ loaded (this (execState unload fr)) = false
  /\ stack_size_for_exec_env (this (execState unload fr)) = 0%N
  /\ error_buf (this (execState unload fr)) = ""
  /\ last_result (this (execState unload fr)) = last_result (this fr).
Proof.
  destruct fr as [[mo mi ss eb lr ld] w].
  destruct mo, mi; cbn; repeat split; reflexivity.
Qed.

(** C6: [unload] is idempotent.  After one [unload] both handles are
    null, [loaded] is false, the stack-size hint is zero and the error
    buffer is empty; a second [unload] makes no engine call and leaves
    the controller and the world exactly as they are.  The same holds for
    a controller that never loaded anything. *)
Theorem unload_idempotent (fr : Frame P) :
  let fr1 := execState unload fr in
  runState unload fr1 = (tt, fr1)
  /\ module (this fr1) = None
  /\ module_inst (this fr1) = None
  /\ loaded (this fr1) = false
  /\ stack_size_for_exec_env (this fr1) = 0%N
  /\ getError (this fr1) = None
  /\ (forall w : World P,
        runState unload (mkFrame WamrModule_ctor w)
        = (tt, mkFrame WamrModule_ctor w)).
Proof.
  cbv zeta.
  destruct fr as [[mo mi ss eb lr ld] w].
  destruct mo, mi; cbn; repeat split; reflexivity.
Qed.

(** *** The invocation primitive *)

(** One step of symbolic execution: name the answer of the next boundary
    call, or split on the next test. *)
Ltac next_call :=
  match goal with
  | |- context [let (_, _) := ?e in _] =>
      lazymatch e with
      | context [match _ with _ => _ end] => fail
      | _ => destruct e as [? ?] eqn:?
      end
  end.

Ltac next_test :=
  match goal with
  | |- context [match ?x with _ => _ end] =>
      lazymatch x with
      | context [match _ with _ => _ end] => fail
      | _ => destruct x eqn:?
      end
  end.

Ltac run_code := repeat (cbn; first [next_call | next_test]); cbn.

Lemma callFunctionInternal_keeps_handles
      (fr : Frame P) (func_name : string) (argc : uint32_t) (argv : argv_t) :
  let fr' := execState (callFunctionInternal func_name argc argv) fr in
  module (this fr') = module (this fr)
  /\ module_inst (this fr') = module_inst (this fr)
  /\ loaded (this fr') = loaded (this fr)
  /\ stack_size_for_exec_env (this fr') = stack_size_for_exec_env (this fr).
Proof.
  cbv zeta. destruct fr as [[mo mi ss eb lr ld] w].
  unfold execState, callFunctionInternal.
  run_code; repeat split; reflexivity.
Qed.

(** C8: whatever the engine answers, [callFunctionInternal] returns with
    every execution environment it created already destroyed: the calls
    it adds to the trace leave no environment alive, so the environments
    alive after the invocation are those alive before it. *)
Theorem callFunctionInternal_leaves_no_exec_env
        (fr : Frame P) (func_name : string) (argc : uint32_t)
        (argv : argv_t) :
  let fr' := execState (callFunctionInternal func_name argc argv) fr in
  exists seg : list Call,
    calls (world fr') = (calls (world fr) ++ seg)%list
    /\ live_exec_envs seg = []
    /\ (forall e, In e (created_exec_envs seg) ->
                  In (E_wasm_runtime_destroy_exec_env e) seg)
    /\ live_exec_envs (calls (world fr'))
       = live_exec_envs (calls (world fr)).
Proof.
  cbv zeta. destruct fr as [[mo mi ss eb lr ld] w], argv as [buf|].
  all: unfold execState, callFunctionInternal; run_code.
  all: repeat rewrite <- app_assoc; cbn [app].
  all: try (exists []; rewrite app_nil_r; cbn; intuition; fail).
  all: eexists; split; [reflexivity | ].
  all: unfold live_exec_envs; rewrite ?fold_left_app; cbn;
    rewrite ?Pos.eqb_refl.
  all: repeat split; try reflexivity.
  all: intros e He; cbn in He; intuition (subst; cbn; auto).
Qed.

(** C1, as the code has it: on a loaded controller the first boundary
    call of [callFunctionInternal] creates the execution environment, and
    the function is looked up only afterwards.  When the environment
    cannot be created the call fails with the creation message and no
    lookup is made.  When the named function does not exist the call
    fails with the not-found message naming the symbol, after an
    environment was created; that environment is destroyed before the
    call returns. *)
Theorem callFunctionInternal_creates_context_then_looks_up
        (fr : Frame P) (func_name : string) (argc : uint32_t)
        (argv : argv_t) (inst : handle) :
  loaded (this fr) = true ->
  module_inst (this fr) = Some inst ->
  let stack := stack_size_for_exec_env (this fr) in
  let r := runState (callFunctionInternal func_name argc argv) fr in
  let seg := emitted (calls (world fr)) (calls (world (snd r))) in
  (exists env rest,
      seg = E_wasm_runtime_create_exec_env inst stack env :: rest
      /\ existsb is_create_exec_env rest = false)
  /\ (forall p1,
        ext_create_exec_env inst stack (plat (world fr)) = (None, p1) ->
        fst r = (false, argv)
        /\ error_buf (this (snd r))
           = "Failed to create execution environment"
        /\ seg = [E_wasm_runtime_create_exec_env inst stack None]
        /\ existsb is_lookup_function seg = false)
  /\ (forall env p1 p2,
        ext_create_exec_env inst stack (plat (world fr)) = (Some env, p1) ->
        ext_lookup_function inst func_name p1 = (None, p2) ->
        fst r = (false, argv)
        /\ error_buf (this (snd r))
           = snprintf ("Function '" ++ func_name ++ "' not found")
        /\ seg = [E_wasm_runtime_create_exec_env inst stack (Some env);
                  E_wasm_runtime_lookup_function inst func_name None;
                  E_wasm_runtime_destroy_exec_env env]).
Proof.
  destruct fr as [[mo mi ss eb lr ld] w]. cbn [this world loaded module_inst
    stack_size_for_exec_env]. intros -> ->. cbv zeta.
  split; [ | split ].
  - destruct argv as [buf|].
    all: unfold callFunctionInternal; run_code.
    all: repeat rewrite <- app_assoc; cbn [app]; rewrite emitted_app.
    all: eexists; eexists; split; [reflexivity | reflexivity].
  - intros p1 H1. unfold callFunctionInternal. cbn. rewrite H1. cbn.
    rewrite emitted_app. repeat split; reflexivity.
  - intros env p1 p2 H1 H2. unfold callFunctionInternal. cbn.
    rewrite H1. cbn. rewrite H2. cbn.
    repeat rewrite <- app_assoc; cbn [app]. rewrite emitted_app.
    repeat split; reflexivity.
Qed.

(** *** Loading *)

(** C3: when the bytecode compiles but instantiation fails, [load]
    returns failure, releases the compiled unit (the engine's unload is
    the last call made, and the unit handle is null afterwards) and leaves
    the controller not loaded: the instance handle is null, [isLoaded]
    answers false, and the error buffer carries the engine's text. *)
Theorem load_instantiate_failure_releases_unit
        (fr : Frame P) (wasm_bytes : list Byte.byte)
        (size stack_size heap_size : uint32_t)
        (u : handle) (msg : string) (p1 p2 : P) :
  initialized (world fr) = true ->
  let fr0 := execState unload fr in
  ext_load wasm_bytes size (plat (world fr0)) = (inl u, p1) ->
  ext_instantiate u stack_size heap_size p1 = (inr msg, p2) ->
  let r := runState (load wasm_bytes size stack_size heap_size) fr in
  fst r = false
  /\ module (this (snd r)) = None
  /\ module_inst (this (snd r)) = None
  /\ loaded (this (snd r)) = false
  /\ isLoaded (this (snd r)) = false
  /\ error_buf (this (snd r)) = snprintf msg
  /\ emitted (calls (world fr0)) (calls (world (snd r)))
     = [E_wasm_runtime_load size (inl u);
        E_wasm_runtime_instantiate u stack_size heap_size (inr msg);
        E_wasm_runtime_unload u].
Proof.
  destruct fr as [[mo mi ss eb lr ld] w]. cbn [this world].
  intros Hinit. cbv zeta.
  destruct mo, mi; unfold load; cbn; rewrite Hinit; cbn.
  all: intros H1 H2; rewrite H1; cbn; rewrite H2; cbn.
  all: rewrite emitted_snoc3.
  all: repeat split; reflexivity.
Qed.

(** *** Results and errors of a call *)

Lemma callFunctionInternal_success
      (fr fr' : Frame P) (func_name : string) (argc : uint32_t)
      (argv argv' : argv_t) :
  runState (callFunctionInternal func_name argc argv) fr
  = ((true, argv'), fr') ->
  error_buf (this fr') = error_buf (this fr)
  /\ (forall buf, argv = Some buf -> (0 < argc)%N ->
        exists buf', argv' = Some buf'
                     /\ last_result (this fr') = read_slot buf' 0).
Proof.
  destruct fr as [[mo mi ss eb lr ld] w], argv as [buf|].
  all: unfold callFunctionInternal; run_code.
  all: intros H; inversion H; subst; clear H; cbn.
  all: split; [reflexivity | ].
  all: intros b Hb Hargc; try discriminate.
  all: try (eexists; split; reflexivity).
  all: try (apply N.ltb_lt in Hargc; cbn in Hargc; congruence).
Qed.

Lemma callFunction_success
      (fr fr' : Frame P) (func_name : string) (argc : uint32_t)
      (argv argv' : argv_t) :
  runState (callFunction func_name argc argv) fr = ((true, argv'), fr') ->
  exists fr1 fr1',
    runState (callFunctionInternal func_name argc argv) fr1
    = ((true, argv'), fr1')
    /\ this fr1 = this fr /\ this fr' = this fr1'.
Proof.
  destruct fr as [m w]. unfold callFunction, wasm_thread_wrapper.
  cbn -[callFunctionInternal].
  repeat (first [next_call | next_test]; cbn -[callFunctionInternal]).
  all: intros H; inversion H; subst; clear H.
  match goal with
  | E : runState (callFunctionInternal _ _ _) ?f = (?r, ?f') |- _ =>
      exists f, f'; destruct r as [ok av]; cbn in *; subst;
      repeat split; exact E
  end.
Qed.

(** C7: after a successful [callFunction] with [argc > 0] and a non-null
    [argv], [getResult] returns the value found in slot 0 of [argv] as the
    call left it. *)
Theorem callFunction_getResult_round_trip
        (fr fr' : Frame P) (func_name : string) (argc : uint32_t)
        (buf : list uint32_t) (argv' : argv_t) :
  (0 < argc)%N ->
  runState (callFunction func_name argc (Some buf)) fr
  = ((true, argv'), fr') ->
  exists buf' : list uint32_t,
    argv' = Some buf' /\ getResult (this fr') = read_slot buf' 0.
Proof.
  intros Hargc Hcall.
  destruct (callFunction_success _ _ _ _ _ _ Hcall)
    as (fr1 & fr1' & Hint & _ & Hthis).
  destruct (callFunctionInternal_success _ _ _ _ _ _ Hint) as [_ Hres].
  destruct (Hres buf eq_refl Hargc) as (buf' & Hav & Hlast).
  exists buf'. split; [exact Hav | ].
  unfold getResult. rewrite Hthis. exact Hlast.
Qed.

Lemma callFunction_keeps_handles
      (fr : Frame P) (func_name : string) (argc : uint32_t) (argv : argv_t) :
  let fr' := execState (callFunction func_name argc argv) fr in
  module (this fr') = module (this fr)
  /\ module_inst (this fr') = module_inst (this fr)
  /\ loaded (this fr') = loaded (this fr)
  /\ stack_size_for_exec_env (this fr') = stack_size_for_exec_env (this fr).
Proof.
  cbv zeta. destruct fr as [m w].
  unfold execState, callFunction, wasm_thread_wrapper.
  cbn -[callFunctionInternal].
  repeat (first [next_call | next_test]; cbn -[callFunctionInternal]).
  all: try (destruct m; repeat split; reflexivity).
  match goal with
  | E : runState (callFunctionInternal ?n ?c ?a) ?f = (_, ?f') |- _ =>
      pose proof (callFunctionInternal_keeps_handles f n c a) as K;
      unfold execState in K; rewrite E in K; exact K
  end.
Qed.

Lemma load_success
      (fr : Frame P) (wasm_bytes : list Byte.byte)
      (size stack_size heap_size : uint32_t) :
  evalState (load wasm_bytes size stack_size heap_size) fr = true ->
  let fr' := execState (load wasm_bytes size stack_size heap_size) fr in
  error_buf (this fr') = ""
  /\ loaded (this fr') = true
  /\ isLoaded (this fr') = true
  /\ stack_size_for_exec_env (this fr') = stack_size.
Proof.
  cbv zeta. destruct fr as [[mo mi ss eb lr ld] w].
  unfold evalState, execState, load.
  destruct mo, mi; run_code; intros H; try discriminate H.
  all: repeat split; reflexivity.
Qed.





(** *** The controller invariant *)

Lemma controller_inv_handles (m m' : WamrModule) :
  module m' = module m ->
  module_inst m' = module_inst m ->
  loaded m' = loaded m ->
  controller_inv m -> controller_inv m'.
Proof.
  unfold controller_inv, isLoaded. intros -> -> ->. exact (fun H => H).
Qed.

Lemma load_controller_inv
      (fr : Frame P) (wasm_bytes : list Byte.byte)
      (size stack_size heap_size : uint32_t) :
  controller_inv (this fr) ->
  controller_inv
    (this (execState (load wasm_bytes size stack_size heap_size) fr)).
Proof.
  destruct fr as [[mo mi ss eb lr ld] w].
  unfold execState, load, controller_inv, isLoaded.
  destruct mo, mi; run_code; intros [H1 H2]; cbn in *.
  all: split; try assumption; try reflexivity; try congruence.
Qed.

(** C9: the controller invariant (an instance only together with its
    compiled unit, and [loaded] equal to "the instance handle is not
    null", which is what [isLoaded] tests) holds after construction and
    is preserved by [load], [callFunction], [callFunctionRaw], [unload]
    and destruction. *)
Theorem controller_inv_preserved :
  controller_inv WamrModule_ctor
  /\ (forall fr : Frame P,
        controller_inv (this fr) ->
        (forall wasm_bytes size stack_size heap_size,
            controller_inv
              (this (execState
                       (load wasm_bytes size stack_size heap_size) fr)))
        /\ (forall func_name argc argv,
              controller_inv
                (this (execState (callFunction func_name argc argv) fr)))
        /\ (forall func_name argc argv,
              controller_inv
                (this (execState (callFunctionRaw func_name argc argv) fr)))
        /\ controller_inv (this (execState unload fr))
        /\ controller_inv (this (execState WamrModule_dtor fr))).
Proof.
  split.
  - split; [intros H; contradiction H; reflexivity | reflexivity].
  - intros fr Hinv.
    assert (Hun : controller_inv (this (execState unload fr))).
    { destruct (unload_result fr) as (Hm & Hi & Hl & _).
      unfold controller_inv, isLoaded. rewrite Hm, Hi, Hl.
      split; [intros H; contradiction H; reflexivity | reflexivity]. }
    repeat split; try exact Hun; try apply Hun.
    + apply (load_controller_inv fr); exact Hinv.
    + apply (load_controller_inv fr); exact Hinv.
    + destruct (callFunction_keeps_handles fr func_name argc argv)
        as (Hm & Hi & Hl & _).
      apply (controller_inv_handles (this fr)); assumption.
    + destruct (callFunction_keeps_handles fr func_name argc argv)
        as (Hm & Hi & Hl & _).
      apply (controller_inv_handles (this fr)); assumption.
    + destruct (callFunctionInternal_keeps_handles fr func_name argc argv)
        as (Hm & Hi & Hl & _).
      apply (controller_inv_handles (this fr)); assumption.
    + destruct (callFunctionInternal_keeps_handles fr func_name argc argv)
        as (Hm & Hi & Hl & _).
      apply (controller_inv_handles (this fr)); assumption.
Qed.

(** *** Calling without a module *)

Lemma not_loaded_cases (ld : bool) (mi : ptr) :
  ld = false \/ mi = None ->
  (ld = false /\ mi = None) \/ (ld = false /\ exists h, mi = Some h)
  \/ (ld = true /\ mi = None).
Proof.
  destruct ld, mi as [h|]; intros [H|H]; try discriminate H; eauto.
Qed.

Lemma call_without_module_core
        (fr : Frame P) (func_name : string) (argc : uint32_t)
        (argv : argv_t) :
  loaded (this fr) = false \/ module_inst (this fr) = None ->
  runState (callFunctionRaw func_name argc argv) fr
  = ((false, argv),
     mkFrame (set_error_buf "Module not loaded" (this fr)) (world fr))
  /\ (let r := runState (callFunction func_name argc argv) fr in
      fst r = (false, argv)
      /\ module (this (snd r)) = module (this fr)
      /\ module_inst (this (snd r)) = module_inst (this fr)
      /\ loaded (this (snd r)) = loaded (this fr)
      /\ last_result (this (snd r)) = last_result (this fr)
      /\ no_engine_call
           (emitted (calls (world fr)) (calls (world (snd r)))) = true
      /\ (error_buf (this (snd r)) = "Module not loaded"
          \/ In (error_buf (this (snd r))) thread_setup_messages)
      /\ (forall p1 p2 p3,
            ext_pthread_attr_init (plat (world fr)) = (0%Z, p1) ->
            ext_pthread_attr_setstacksize
              (thread_stack_size (world fr)) p1 = (0%Z, p2) ->
            ext_pthread_create p2 = (0%Z, p3) ->
            error_buf (this (snd r)) = "Module not loaded")).
Proof.
  destruct fr as [[mo mi ss eb lr ld] w]. cbn [this world loaded module_inst].
  intros H. apply not_loaded_cases in H.
  destruct H as [[-> ->] | [[-> [h ->]] | [-> ->]]].
  all: split; [reflexivity | ].
  all: cbv zeta; unfold callFunction, wasm_thread_wrapper,
         callFunctionInternal; run_code.
  all: repeat rewrite <- app_assoc; cbn [app]; rewrite emitted_app.
  all: repeat split; try reflexivity; try (left; reflexivity).
  all: try (right; cbn; tauto).
  all: intros q1 q2 q3 E1 E2 E3.
  all: repeat match goal with
         | E : (_, _) = (_, _) |- _ => inversion E; subst; clear E
         | E : ?x = (_, _), E' : ?x = (_, _) |- _ => rewrite E in E'
         end.
  all: cbn in *; try discriminate; reflexivity.
Qed.


Lemma callFunction_thread_step_message
      (fr : Frame P) (func_name : string) (argc : uint32_t) (argv : argv_t) :
  let r := runState (callFunction func_name argc argv) fr in
  let tss := thread_stack_size (world fr) in
  (forall rc p1,
      ext_pthread_attr_init (plat (world fr)) = (rc, p1) ->
      rc <> 0%Z ->
      error_buf (this (snd r)) = "Failed to initialize pthread attributes")
  /\ (forall rc p1 p2,
        ext_pthread_attr_init (plat (world fr)) = (0%Z, p1) ->
        ext_pthread_attr_setstacksize tss p1 = (rc, p2) ->
        rc <> 0%Z ->
        error_buf (this (snd r)) = "Failed to set pthread stack size")
  /\ (forall rc p1 p2 p3,
        ext_pthread_attr_init (plat (world fr)) = (0%Z, p1) ->
        ext_pthread_attr_setstacksize tss p1 = (0%Z, p2) ->
        ext_pthread_create p2 = (rc, p3) ->
        rc <> 0%Z ->
        error_buf (this (snd r))
        = "Failed to create pthread for WASM execution").
Proof.
  destruct fr as [m [p tr ini buf err tss]].
  cbn [this world plat thread_stack_size calls]. cbv zeta.
  split; [ | split ].
  - intros rc p1 H1 Hrc. unfold callFunction.
    cbn -[callFunctionInternal]. rewrite H1.
    destruct rc; [contradiction Hrc; reflexivity | | ]; reflexivity.
  - intros rc p1 p2 H1 H2 Hrc. unfold callFunction.
    cbn -[callFunctionInternal]. rewrite H1.
    cbn -[callFunctionInternal]. rewrite H2.
    destruct rc; [contradiction Hrc; reflexivity | | ]; reflexivity.
  - intros rc p1 p2 p3 H1 H2 H3 Hrc. unfold callFunction.
    cbn -[callFunctionInternal]. rewrite H1.
    cbn -[callFunctionInternal]. rewrite H2.
    cbn -[callFunctionInternal]. rewrite H3.
    destruct rc; [contradiction Hrc; reflexivity | | ]; reflexivity.
Qed.

(** C10, as the code has it: on a controller with no loaded module
    ([loaded] false or a null instance handle) both call paths return
    failure, make no engine call, and leave the argument slots, both
    handles, the [loaded] flag and [lastResult] unchanged.
    [callFunctionRaw] always leaves "Module not loaded" in the error
    buffer; [callFunction] does so whenever its worker thread is set up
    and created, and otherwise leaves the message of the thread step that
    failed: the attribute-initialisation message when [pthread_attr_init]
    fails, the stack-size message when [pthread_attr_setstacksize]
    fails, the thread-creation message when [pthread_create] fails. *)
Theorem call_without_module
        (fr : Frame P) (func_name : string) (argc : uint32_t)
        (argv : argv_t) :
  loaded (this fr) = false \/ module_inst (this fr) = None ->
  runState (callFunctionRaw func_name argc argv) fr
  = ((false, argv),
     mkFrame (set_error_buf "Module not loaded" (this fr)) (world fr))
  /\ (let r := runState (callFunction func_name argc argv) fr in
      let tss := thread_stack_size (world fr) in
      fst r = (false, argv)
      /\ module (this (snd r)) = module (this fr)
      /\ module_inst (this (snd r)) = module_inst (this fr)
      /\ loaded (this (snd r)) = loaded (this fr)
      /\ last_result (this (snd r)) = last_result (this fr)
      /\ no_engine_call
           (emitted (calls (world fr)) (calls (world (snd r)))) = true
      /\ (error_buf (this (snd r)) = "Module not loaded"
          \/ In (error_buf (this (snd r))) thread_setup_messages)
      /\ (forall p1 p2 p3,
            ext_pthread_attr_init (plat (world fr)) = (0%Z, p1) ->
            ext_pthread_attr_setstacksize tss p1 = (0%Z, p2) ->
            ext_pthread_create p2 = (0%Z, p3) ->
            error_buf (this (snd r)) = "Module not loaded")
      /\ (forall rc p1,
            ext_pthread_attr_init (plat (world fr)) = (rc, p1) ->
            rc <> 0%Z ->
            error_buf (this (snd r))
            = "Failed to initialize pthread attributes")
      /\ (forall rc p1 p2,
            ext_pthread_attr_init (plat (world fr)) = (0%Z, p1) ->
            ext_pthread_attr_setstacksize tss p1 = (rc, p2) ->
            rc <> 0%Z ->
            error_buf (this (snd r)) = "Failed to set pthread stack size")
      /\ (forall rc p1 p2 p3,
            ext_pthread_attr_init (plat (world fr)) = (0%Z, p1) ->
            ext_pthread_attr_setstacksize tss p1 = (0%Z, p2) ->
            ext_pthread_create p2 = (rc, p3) ->
            rc <> 0%Z ->
            error_buf (this (snd r))
            = "Failed to create pthread for WASM execution")).
Proof.
  intros H.
  destruct (call_without_module_core fr func_name argc argv H)
    as (Hraw & H1 & H2 & H3 & H4 & H5 & H6 & H7 & H8).
  destruct (callFunction_thread_step_message fr func_name argc argv)
    as (S1 & S2 & S3).
  split; [exact Hraw | ]. cbv zeta.
  split; [exact H1 | ]. split; [exact H2 | ]. split; [exact H3 | ].
  split; [exact H4 | ]. split; [exact H5 | ]. split; [exact H6 | ].
  split; [exact H7 | ]. split; [exact H8 | ].
  split; [exact S1 | ]. split; [exact S2 | exact S3].
Qed.

End Properties.

(** ** The properties at work on the small platform *)

(** The wrapper runs: [begin], [load] and the [add] scenario. *)
Example begin_world0 :
  runState (begin WAMR_DEFAULT_HEAP_POOL) world0
  = (true, mkWorld (mkSim 11%positive true true true true)
                   [E_heap_caps_malloc 131072%N (Some 10%positive);
                    E_wasm_runtime_full_init 10%positive 131072%N true]
                   true (Some 10%positive) None WAMR_DEFAULT_THREAD_STACK).
Proof. reflexivity. Qed.

Example load_tiny_wasm :
  this frame_loaded
  = mkWamrModule (Some 11%positive) (Some 12%positive) 16384%N "" 0%N true.
Proof. reflexivity. Qed.

Example add_42_58 :
  evalState (callFunction "add" 2%N (Some [42; 58]%N)) frame_loaded
  = (true, Some [100; 58]%N).
Proof. reflexivity. Qed.

(** C4 on the begun world, with a pool size below the minimum. *)
Lemma begin_when_initialized_is_noop_witness :
  initialized world_begun = true
  /\ runState (begin 0%N) world_begun = (true, world_begun).
Proof.
  split; [reflexivity | ].
  apply (begin_when_initialized_is_noop world_begun 0%N). reflexivity.
Defined.

(** C5 at process start with a pool of 1 KB. *)
Lemma begin_rejects_small_pool_witness :
  initialized world0 = false
  /\ (1024 < WAMR_MIN_HEAP_SIZE)%N
  /\ runState (begin 1024%N) world0
     = (false,
        set_error_msg (Some "Heap pool size too small (min 16KB)") world0).
Proof.
  split; [reflexivity | split; [reflexivity | ] ].
  apply (begin_rejects_small_pool world0 1024%N); reflexivity.
Defined.

(** C3 on a platform that cannot instantiate. *)
Lemma load_instantiate_failure_releases_unit_witness :
  let fr := on_platform sim_no_instance frame_new in
  let r := runState (load tiny_wasm 8%N WAMR_DEFAULT_STACK_SIZE
                          WAMR_DEFAULT_HEAP_SIZE) fr in
  initialized (world fr) = true
  /\ fst r = false
  /\ module (this (snd r)) = None
  /\ isLoaded (this (snd r)) = false
  /\ getError (this (snd r)) = Some "allocate memory failed".
Proof.
  cbv zeta. split; [reflexivity | ].
  destruct (load_instantiate_failure_releases_unit
              (on_platform sim_no_instance frame_new) tiny_wasm 8%N
              WAMR_DEFAULT_STACK_SIZE WAMR_DEFAULT_HEAP_SIZE
              11%positive "allocate memory failed"
              (mkSim 12%positive true false true true)
              (mkSim 12%positive true false true true))
    as (H1 & H2 & _ & _ & H5 & H6 & _);
    [reflexivity | reflexivity | reflexivity | ].
  split; [exact H1 | split; [exact H2 | split; [exact H5 | ] ] ].
  unfold getError. rewrite H6. reflexivity.
Defined.

(** C1 (as the code has it) on the loaded controller: a missing function
    and, on a platform without memory for it, a failed creation. *)
Lemma callFunctionInternal_creates_context_then_looks_up_witness :
  loaded (this frame_loaded) = true
  /\ module_inst (this frame_loaded) = Some 12%positive
  /\ error_buf
       (this (execState (callFunctionInternal "doesNotExist" 0%N None)
                        frame_loaded))
     = "Function 'doesNotExist' not found".
Proof.
  split; [reflexivity | split; [reflexivity | ] ].
  destruct (callFunctionInternal_creates_context_then_looks_up
              frame_loaded "doesNotExist" 0%N None 12%positive
              eq_refl eq_refl)
    as (_ & _ & H).
  destruct (H 13%positive (mkSim 14%positive true true true true)
              (mkSim 14%positive true true true true) eq_refl eq_refl)
    as (_ & H2 & _).
  exact H2.
Defined.

(** C1 as stated fails: the function [doesNotExist] is not exported, the
    call fails with the not-found message, and yet an execution
    environment was created (and destroyed) before the lookup; and when
    creation fails, the creation error arises with no lookup made at
    all. *)
Lemma lookup_is_not_the_first_step :
  let r := runState (callFunctionInternal "doesNotExist" 0%N None)
                    frame_loaded in
  let seg := emitted (calls (world frame_loaded)) (calls (world (snd r))) in
  let r2 := runState (callFunctionInternal "add" 2%N (Some [42; 58]%N))
                     (on_platform sim_no_exec_env frame_loaded) in
  let seg2 := emitted (calls (world frame_loaded))
                      (calls (world (snd r2))) in
  fst r = (false, None)
  /\ getError (this (snd r)) = Some "Function 'doesNotExist' not found"
  /\ seg = [E_wasm_runtime_create_exec_env 12%positive 16384%N
                                           (Some 13%positive);
            E_wasm_runtime_lookup_function 12%positive "doesNotExist" None;
            E_wasm_runtime_destroy_exec_env 13%positive]
  /\ created_exec_envs seg <> []
  /\ getError (this (snd r2))
     = Some "Failed to create execution environment"
  /\ existsb is_lookup_function seg2 = false.
Proof.
  cbv zeta. repeat split; try reflexivity. discriminate.
Defined.



(** C7 on the loaded controller: [add(42, 58)] leaves 100 in slot 0 and
    in [getResult]. *)
Lemma callFunction_getResult_round_trip_witness :
  let r := runState (callFunction "add" 2%N (Some [42; 58]%N))
                    frame_loaded in
  (0 < 2)%N
  /\ fst r = (true, Some [100; 58]%N)
  /\ exists buf' : list uint32_t,
       Some [100; 58]%N = Some buf'
       /\ getResult (this (snd r)) = read_slot buf' 0.
Proof.
  cbv zeta. split; [reflexivity | split; [reflexivity | ] ].
  refine (callFunction_getResult_round_trip
            frame_loaded
            (snd (runState (callFunction "add" 2%N (Some [42; 58]%N))
                           frame_loaded))
            "add" 2%N [42; 58]%N (Some [100; 58]%N) _ _).
  - reflexivity.
  - vm_compute. reflexivity.
Defined.

(** C9 on the loaded controller. *)
Lemma controller_inv_preserved_witness :
  controller_inv (this frame_loaded)
  /\ controller_inv
       (this (execState (callFunction "add" 2%N (Some [42; 58]%N))
                        frame_loaded))
  /\ controller_inv (this (execState unload frame_loaded)).
Proof.
  assert (H0 : controller_inv (this frame_loaded)).
  { split; [intros _; discriminate | reflexivity]. }
  split; [exact H0 | ].
  destruct (@controller_inv_preserved Sim Platform_Sim) as [_ H].
  destruct (H frame_loaded H0) as (_ & H2 & _ & H4 & _).
  split; [apply H2 | exact H4].
Defined.

(** C10 (as the code has it) on a controller that never loaded: the
    raw path, the safe path with a working thread library, and the safe
    path with no memory for the worker thread. *)
Lemma call_without_module_witness :
  (loaded (this frame_new) = false \/ module_inst (this frame_new) = None)
  /\ runState (callFunctionRaw "add" 2%N (Some [42; 58]%N)) frame_new
     = ((false, Some [42; 58]%N),
        mkFrame (set_error_buf "Module not loaded" (this frame_new))
                (world frame_new))
  /\ error_buf (this (snd (runState
                            (callFunction "add" 2%N (Some [42; 58]%N))
                            frame_new)))
     = "Module not loaded"
  /\ error_buf (this (snd (runState
                            (callFunction "add" 2%N (Some [42; 58]%N))
                            (on_platform sim_no_thread frame_new))))
     = "Failed to create pthread for WASM execution".
Proof.
  assert (H0 : loaded (this frame_new) = false
               \/ module_inst (this frame_new) = None)
    by (left; reflexivity).
  assert (H1 : loaded (this (on_platform sim_no_thread frame_new)) = false
               \/ module_inst (this (on_platform sim_no_thread frame_new))
                  = None)
    by (left; reflexivity).
  destruct (call_without_module frame_new "add" 2%N (Some [42; 58]%N) H0)
    as (Hraw & _ & _ & _ & _ & _ & _ & _ & Hok & _).
  destruct (call_without_module
              (on_platform sim_no_thread frame_new)
              "add" 2%N (Some [42; 58]%N) H1)
    as (_ & _ & _ & _ & _ & _ & _ & _ & _ & _ & _ & Hcreate).
  split; [exact H0 | ]. split; [exact Hraw | ].
  split.
  - apply (Hok (plat (world frame_new)) (plat (world frame_new))
               (plat (world frame_new))); vm_compute; reflexivity.
  - apply (Hcreate ENOMEM sim_no_thread sim_no_thread sim_no_thread);
      [vm_compute; reflexivity | vm_compute; reflexivity
       | vm_compute; reflexivity | discriminate].
Defined.

(** C10 as stated fails for the safe path: when there is no memory for
    the worker thread, [callFunction] on a controller with no module
    returns failure with the thread-creation message in the error buffer,
    not a "Module not loaded" message. *)
Lemma callFunction_without_module_other_message :
  let fr := on_platform sim_no_thread frame_new in
  let r := runState (callFunction "add" 2%N (Some [42; 58]%N)) fr in
  isLoaded (this fr) = false
  /\ loaded (this fr) = false
  /\ fst r = (false, Some [42; 58]%N)
  /\ getError (this (snd r))
     = Some "Failed to create pthread for WASM execution"
  /\ getError (this (snd r)) <> Some "Module not loaded".
Proof.
  cbv zeta. repeat split; try reflexivity. discriminate.
Defined.

(** ** The runtime life cycle, further *)

(** Symbolic execution for the properties below: take the innermost
    boundary call or test that blocks evaluation, and go on. *)
Ltac inner_call :=
  match goal with
  | |- context [let (_, _) := ?e in _] =>
      lazymatch e with
      | context [match _ with _ => _ end] => fail
      | _ => destruct e as [? ?] eqn:?
      end
  end.

Ltac inner_test :=
  match goal with
  | |- context [match ?x with _ => _ end] =>
      lazymatch x with
      | context [match _ with _ => _ end] => fail
      | _ => destruct x eqn:?
      end
  end.

Ltac symex :=
  repeat (cbn -[N.ltb WAMR_MIN_HEAP_SIZE]; first [inner_call | inner_test]);
  cbn -[N.ltb WAMR_MIN_HEAP_SIZE].

Ltac tidy :=
  repeat match goal with
    | H : negb (?z =? 0)%Z = _ |- _ =>
        is_var z; destruct z; cbn in H; try discriminate H; clear H
    | H : negb ?b = _ |- _ =>
        first [is_var b; destruct b | idtac];
        cbn in H; try discriminate H; clear H
    | H : is_null ?p = _ |- _ =>
        first [is_var p; destruct p | idtac];
        cbn in H; try discriminate H; clear H
    end.

Ltac held :=
  unfold resources; rewrite ?fold_left_app; cbn;
  match goal with
  | |- context [fold_left res_step ?tr res0] =>
      destruct (fold_left res_step tr res0)
  | _ => idtac
  end;
  unfold hold_buf, drop_buf, hold_engine, drop_engine, hold_unit, drop_unit,
    hold_inst, drop_inst, hold_env, drop_env, hold_attr, drop_attr,
    hold_thread, drop_thread; cbn; rewrite ?Pos.eqb_refl.

Lemma emitted_snoc2 (tr : list Call) (a b : Call) :
  emitted tr ((tr ++ [a]) ++ [b]) = [a; b].
Proof. rewrite <- !app_assoc. apply emitted_app. Qed.

Section RuntimeProperties.
Context {P : Type} {PF : Platform P}.

Lemma execState_seq {S A B : Type} (c : state S A) (k : state S B) (s : S) :
  execState (c ;; k) s = execState k (execState c s).
Proof. unfold execState. cbn. destruct (runState c s). reflexivity. Qed.

Lemma runtime_inv_uninitialized (w : World P) :
  runtime_inv w -> initialized w = false -> global_heap_buf w = None.
Proof.
  unfold runtime_inv. intros H H0. rewrite H0 in H.
  destruct (global_heap_buf w); [discriminate H | reflexivity].
Qed.

(** What [begin] does on a runtime that is not initialized. *)
Lemma begin_outcomes (w : World P) (heap_pool_size : uint32_t) :
  initialized w = false ->
  global_heap_buf w = None ->
  let r := runState (begin heap_pool_size) w in
  thread_stack_size (snd r) = thread_stack_size w
  /\ ((fst r = false
       /\ initialized (snd r) = false
       /\ global_heap_buf (snd r) = None
       /\ error_msg (snd r) <> None
       /\ resources (calls (snd r)) = resources (calls w))
      \/ (fst r = true
          /\ initialized (snd r) = true
          /\ error_msg (snd r) = error_msg w
          /\ (WAMR_MIN_HEAP_SIZE <= heap_pool_size)%N
          /\ exists b,
              global_heap_buf (snd r) = Some b
              /\ resources (calls (snd r))
                 = hold_engine (hold_buf b (resources (calls w))))).
Proof.
  destruct w as [p tr ini buf err tss]. cbn [initialized global_heap_buf].
  intros -> ->. cbv zeta. unfold begin. symex; tidy.
  all: split; [reflexivity | ].
  all: try (left; repeat split; try reflexivity; try discriminate;
            held; reflexivity).
  all: right; repeat split; try reflexivity.
  all: try (apply N.ltb_ge; assumption).
  all: eexists; split; [reflexivity | held; reflexivity].
Qed.

(** X1: [begin] returns true exactly when the runtime is initialized
    afterwards, whatever the state before and whatever the allocator and
    the engine answer. *)
Theorem begin_returns_isInitialized (w : World P) (heap_pool_size : uint32_t) :
  evalState (begin heap_pool_size) w
  = evalState isInitialized (execState (begin heap_pool_size) w).
Proof.
  destruct w as [p tr ini buf err tss].
  unfold evalState, execState, begin. symex; reflexivity.
Qed.

(** X2: a failed [begin] fails closed.  On a runtime that is not
    initialized and holds no buffer, when [begin] returns false the
    runtime is still not initialized, holds no buffer, has an error
    message to report, and everything acquired on the way (a buffer that
    the engine then refused) has been released again. *)
Theorem begin_failure_fails_closed (w : World P) (heap_pool_size : uint32_t) :
  initialized w = false ->
  global_heap_buf w = None ->
  evalState (begin heap_pool_size) w = false ->
  let w' := execState (begin heap_pool_size) w in
  initialized w' = false
  /\ global_heap_buf w' = None
  /\ evalState WamrRuntime_getError w' <> None
  /\ resources (calls w') = resources (calls w).
Proof.
  intros Hini Hbuf Hfail.
  destruct (begin_outcomes w heap_pool_size Hini Hbuf) as [_ [H | H]].
  - destruct H as (_ & H1 & H2 & H3 & H4). cbv zeta.
    unfold execState. repeat split; assumption.
  - destruct H as (H & _). unfold evalState in Hfail. congruence.
Qed.

(** X3: a successful [begin] on a runtime that is not initialized holds
    exactly one new heap buffer and one engine initialisation, stores that
    buffer as the global heap, was given at least the minimum pool size,
    and leaves the runtime error message as it was. *)
Theorem begin_success_holds_one_buffer
        (w : World P) (heap_pool_size : uint32_t) :
  initialized w = false ->
  global_heap_buf w = None ->
  evalState (begin heap_pool_size) w = true ->
  let w' := execState (begin heap_pool_size) w in
  (WAMR_MIN_HEAP_SIZE <= heap_pool_size)%N
  /\ error_msg w' = error_msg w
  /\ exists b,
      global_heap_buf w' = Some b
      /\ resources (calls w')
         = hold_engine (hold_buf b (resources (calls w))).
Proof.
  intros Hini Hbuf Hok.
  destruct (begin_outcomes w heap_pool_size Hini Hbuf) as [_ [H | H]].
  - destruct H as (H & _). unfold evalState in Hok. congruence.
  - destruct H as (_ & _ & H2 & H3 & H4). cbv zeta. unfold execState.
    repeat split; assumption.
Qed.

(** X4: the allocation order of [begin].  The external-RAM allocator is
    asked first; when it delivers, [malloc] is never called: the engine
    is initialised on that buffer and nothing else happens, except that
    the buffer is freed when the engine refuses.  When it does not
    deliver, [malloc] is asked once for the same size and the engine is
    initialised on its buffer in the same way.  When both return null,
    [begin] fails with the allocation message without calling the
    engine. *)
Theorem begin_allocation_order (w : World P) (heap_pool_size : uint32_t) :
  initialized w = false ->
  (WAMR_MIN_HEAP_SIZE <= heap_pool_size)%N ->
  let r := runState (begin heap_pool_size) w in
  let seg := emitted (calls w) (calls (snd r)) in
  (forall b p1,
      ext_heap_caps_malloc heap_pool_size (plat w) = (Some b, p1) ->
      existsb is_malloc_call seg = false
      /\ exists ok,
          fst r = ok
          /\ global_heap_buf (snd r) = (if ok then Some b else None)
          /\ seg = E_heap_caps_malloc heap_pool_size (Some b)
                   :: E_wasm_runtime_full_init b heap_pool_size ok
                   :: (if ok then [] else [E_free b]))
  /\ (forall b p1 p2,
        ext_heap_caps_malloc heap_pool_size (plat w) = (None, p1) ->
        ext_malloc heap_pool_size p1 = (Some b, p2) ->
        exists ok,
          fst r = ok
          /\ global_heap_buf (snd r) = (if ok then Some b else None)
          /\ seg = E_heap_caps_malloc heap_pool_size None
                   :: E_malloc heap_pool_size (Some b)
                   :: E_wasm_runtime_full_init b heap_pool_size ok
                   :: (if ok then [] else [E_free b]))
  /\ (forall p1 p2,
        ext_heap_caps_malloc heap_pool_size (plat w) = (None, p1) ->
        ext_malloc heap_pool_size p1 = (None, p2) ->
        fst r = false
        /\ error_msg (snd r) = Some "Failed to allocate global heap"
        /\ global_heap_buf (snd r) = None
        /\ seg = [E_heap_caps_malloc heap_pool_size None;
                  E_malloc heap_pool_size None]).
Proof.
  destruct w as [p tr ini buf err tss]. cbn [initialized plat calls].
  intros -> Hsize. apply N.ltb_ge in Hsize. cbv zeta.
  split; [ | split ].
  - intros b p1 H1. unfold begin. cbn -[N.ltb WAMR_MIN_HEAP_SIZE].
    rewrite Hsize. cbn. rewrite H1. symex; tidy.
    all: repeat rewrite <- app_assoc; cbn [app]; rewrite emitted_app.
    all: split; [reflexivity | ].
    all: first [ exists true; repeat split; reflexivity
               | exists false; repeat split; reflexivity ].
  - intros b p1 p2 H1 H2. unfold begin. cbn -[N.ltb WAMR_MIN_HEAP_SIZE].
    rewrite Hsize. cbn. rewrite H1. cbn. rewrite H2. symex; tidy.
    all: repeat rewrite <- app_assoc; cbn [app]; rewrite emitted_app.
    all: first [ exists true; repeat split; reflexivity
               | exists false; repeat split; reflexivity ].
  - intros p1 p2 H1 H2. unfold begin. cbn -[N.ltb WAMR_MIN_HEAP_SIZE].
    rewrite Hsize. cbn. rewrite H1. cbn. rewrite H2. cbn.
    repeat rewrite <- app_assoc; cbn [app]; rewrite emitted_app.
    repeat split; reflexivity.
Qed.

(** What [end] does. *)
Lemma end_outcomes (w : World P) :
  let w' := execState end_ w in
  initialized w' = false
  /\ error_msg w' = error_msg w
  /\ thread_stack_size w' = thread_stack_size w
  /\ (initialized w = false -> w' = w)
  /\ (initialized w = true ->
      global_heap_buf w' = None
      /\ calls w'
         = (calls w
            ++ E_wasm_runtime_destroy
               :: match global_heap_buf w with
                  | Some b => [E_free b]
                  | None => []
                  end)%list).
Proof.
  destruct w as [p tr ini buf err tss]. cbv zeta.
  unfold execState, end_. destruct ini, buf; cbn.
  all: repeat split; try reflexivity; try discriminate.
  all: repeat rewrite <- app_assoc; reflexivity.
Qed.

(** X5: [end] tears down in order and only once.  On an initialized
    runtime it destroys the engine first and then frees the global buffer
    (if one is held), and leaves the runtime not initialized with no
    buffer; on a runtime that is not initialized it changes nothing, so a
    second [end] makes no call and cannot free twice. *)
Theorem end_tears_down_once (w : World P) :
  let w1 := execState end_ w in
  runState end_ w1 = (tt, w1)
  /\ initialized w1 = false
  /\ (initialized w = false -> w1 = w)
  /\ (initialized w = true ->
      global_heap_buf w1 = None
      /\ emitted (calls w) (calls w1)
         = E_wasm_runtime_destroy
           :: match global_heap_buf w with
              | Some b => [E_free b]
              | None => []
              end).
Proof.
  cbv zeta.
  destruct (end_outcomes w) as (H1 & _ & _ & H4 & H5).
  destruct (end_outcomes (execState end_ w)) as (_ & _ & _ & H4' & _).
  repeat split; try assumption; try (apply H5; assumption).
  2: { destruct (H5 H) as [_ ->]. apply emitted_app. }
  specialize (H4' H1).
  unfold execState in *.
  destruct (runState end_ (snd (runState end_ w))) as [[] w2]. cbn in H4'.
  rewrite H4'. reflexivity.
Qed.

(** X6: the runtime error message is never cleared.  A successful
    [begin] and an [end] both leave it as it was, so
    [WamrRuntime::getError] goes on returning the reason of an earlier
    failed [begin]. *)
Theorem runtime_error_is_sticky
        (w : World P) (heap_pool_size : uint32_t) :
  (evalState (begin heap_pool_size) w = true ->
   evalState WamrRuntime_getError (execState (begin heap_pool_size) w)
   = evalState WamrRuntime_getError w)
  /\ evalState WamrRuntime_getError (execState end_ w)
     = evalState WamrRuntime_getError w.
Proof.
  split.
  - destruct w as [p tr ini buf err tss].
    unfold evalState, execState, begin. symex.
    all: intros H; try discriminate H; reflexivity.
  - destruct (end_outcomes w) as (_ & H & _). exact H.
Qed.

(** X7: the runtime invariant.  "Initialized exactly when the global
    heap buffer is held" is preserved by [begin] and by [end], whatever
    the allocator and the engine answer. *)
Theorem runtime_inv_preserved (w : World P) (heap_pool_size : uint32_t) :
  runtime_inv w ->
  runtime_inv (execState (begin heap_pool_size) w)
  /\ runtime_inv (execState end_ w).
Proof.
  intros Hinv. split.
  - destruct (initialized w) eqn:Hini.
    + assert (E : runState (begin heap_pool_size) w = (true, w)).
      { unfold begin. cbn. rewrite Hini. reflexivity. }
      unfold execState. rewrite E. exact Hinv.
    + pose proof (runtime_inv_uninitialized w Hinv Hini) as Hbuf.
      destruct (begin_outcomes w heap_pool_size Hini Hbuf) as [_ [H | H]].
      * destruct H as (_ & H1 & H2 & _). unfold runtime_inv, execState.
        rewrite H1, H2. reflexivity.
      * destruct H as (_ & H1 & _ & _ & b & H2 & _).
        unfold runtime_inv, execState. rewrite H1, H2. reflexivity.
  - destruct (end_outcomes w) as (H1 & _ & _ & H4 & H5).
    destruct (initialized w) eqn:Hini.
    + destruct (H5 eq_refl) as [Hb _]. unfold runtime_inv.
      rewrite H1, Hb. reflexivity.
    + rewrite (H4 eq_refl). exact Hinv.
Qed.

(** X8: [begin] followed by [end] leaks nothing.  From a runtime that is
    not initialized and holds no buffer, after the pair the runtime is
    again not initialized with no buffer, and what is held (buffers,
    engine) is what was held before, on every path through [begin]. *)
Theorem begin_end_round_trip (w : World P) (heap_pool_size : uint32_t) :
  initialized w = false ->
  global_heap_buf w = None ->
  let w2 := execState (begin heap_pool_size ;; end_) w in
  initialized w2 = false
  /\ global_heap_buf w2 = None
  /\ resources (calls w2) = resources (calls w).
Proof.
  intros Hini Hbuf. cbv zeta.
  rewrite (execState_seq (begin heap_pool_size) end_ w).
  destruct (begin_outcomes w heap_pool_size Hini Hbuf) as [_ [H | H]].
  - destruct H as (_ & H1 & H2 & _ & H4).
    destruct (end_outcomes (execState (begin heap_pool_size) w))
      as (_ & _ & _ & E & _).
    unfold execState in *. rewrite (E H1). repeat split; assumption.
  - destruct H as (_ & H1 & _ & _ & b & H2 & H3).
    destruct (end_outcomes (execState (begin heap_pool_size) w))
      as (E1 & _ & _ & _ & E).
    unfold execState in *. destruct (E H1) as [Eb Eseg].
    repeat split; try assumption.
    rewrite H2 in Eseg. rewrite Eseg.
    unfold resources in *. rewrite fold_left_app, H3.
    cbn. unfold drop_buf, drop_engine, hold_engine, hold_buf. cbn.
    rewrite Pos.eqb_refl.
    destruct (fold_left res_step (calls w) res0); reflexivity.
Qed.

End RuntimeProperties.

(** ** Loading and unloading, further *)

Section ModuleProperties.
Context {P : Type} {PF : Platform P}.

Lemma load_not_initialized
      (fr : Frame P) (wasm_bytes : list Byte.byte)
      (size stack_size heap_size : uint32_t) :
  initialized (world fr) = false ->
  runState (load wasm_bytes size stack_size heap_size) fr
  = (false,
     mkFrame (set_error_buf "WAMR runtime not initialized" (this fr))
             (world fr)).
Proof.
  destruct fr as [m w]. cbn [world]. intros Hini.
  unfold load. cbn. rewrite Hini. cbn. destruct w; reflexivity.
Qed.

(** X9: [load] before [begin].  When the runtime is not initialized,
    [load] returns false with its own message and does nothing else: no
    engine call is made and a module the controller already holds stays
    in place, handles and all. *)
Theorem load_requires_runtime
        (fr : Frame P) (wasm_bytes : list Byte.byte)
        (size stack_size heap_size : uint32_t) :
  initialized (world fr) = false ->
  runState (load wasm_bytes size stack_size heap_size) fr
  = (false,
     mkFrame (set_error_buf "WAMR runtime not initialized" (this fr))
             (world fr)).
Proof. apply load_not_initialized. Qed.

(** X10: a binary the engine rejects.  With the runtime initialized,
    when compilation fails [load] returns false, never attempts to
    instantiate, leaves the controller fully unloaded (both handles
    null, not loaded, hint zero) and stores the engine's diagnostic, cut
    to the buffer, as the error. *)
Theorem load_compile_failure
        (fr : Frame P) (wasm_bytes : list Byte.byte)
        (size stack_size heap_size : uint32_t) (msg : string) (p1 : P) :
  initialized (world fr) = true ->
  let fr0 := execState unload fr in
  ext_load wasm_bytes size (plat (world fr0)) = (inr msg, p1) ->
  let r := runState (load wasm_bytes size stack_size heap_size) fr in
  fst r = false
  /\ this (snd r)
     = mkWamrModule None None 0%N (snprintf msg)
                    (last_result (this fr)) false
  /\ emitted (calls (world fr0)) (calls (world (snd r)))
     = [E_wasm_runtime_load size (inr msg)].
Proof.
  destruct fr as [[mo mi ss eb lr ld] w]. cbn [this world].
  intros Hini. cbv zeta.
  destruct mo, mi; unfold load; cbn -[snprintf]; rewrite Hini;
    cbn -[snprintf].
  all: intros H1; rewrite H1; cbn -[snprintf].
  all: rewrite emitted_app.
  all: repeat split; reflexivity.
Qed.

(** X11: a successful [load].  With the runtime initialized, when the
    engine compiles and instantiates, [load] returns true and the
    controller holds exactly the two handles the engine returned, is
    loaded, remembers the stack size it was given, and has an empty
    error buffer; [lastResult] is the one thing carried over from before
    the load. *)
Theorem load_success_state
        (fr : Frame P) (wasm_bytes : list Byte.byte)
        (size stack_size heap_size : uint32_t) (u i : handle) (p1 p2 : P) :
  initialized (world fr) = true ->
  let fr0 := execState unload fr in
  ext_load wasm_bytes size (plat (world fr0)) = (inl u, p1) ->
  ext_instantiate u stack_size heap_size p1 = (inl i, p2) ->
  let r := runState (load wasm_bytes size stack_size heap_size) fr in
  fst r = true
  /\ this (snd r)
     = mkWamrModule (Some u) (Some i) stack_size ""
                    (last_result (this fr)) true
  /\ getError (this (snd r)) = None
  /\ emitted (calls (world fr0)) (calls (world (snd r)))
     = [E_wasm_runtime_load size (inl u);
        E_wasm_runtime_instantiate u stack_size heap_size (inl i)].
Proof.
  destruct fr as [[mo mi ss eb lr ld] w]. cbn [this world].
  intros Hini. cbv zeta.
  destruct mo, mi; unfold load; cbn; rewrite Hini; cbn.
  all: intros H1 H2; rewrite H1; cbn; rewrite H2; cbn.
  all: rewrite emitted_snoc2.
  all: repeat split; reflexivity.
Qed.

Lemma unload_outcomes (fr : Frame P) :
  let fr' := execState unload fr in
  this fr'
  = mkWamrModule None None 0%N "" (last_result (this fr)) false
  /\ same_statics (world fr) (world fr')
  /\ calls (world fr')
     = (calls (world fr)
        ++ match module_inst (this fr) with
           | Some i => [E_wasm_runtime_deinstantiate i]
           | None => []
           end
        ++ match module (this fr) with
           | Some u => [E_wasm_runtime_unload u]
           | None => []
           end)%list.
Proof.
  destruct fr as [[mo mi ss eb lr ld] [p tr ini buf err tss]].
  unfold same_statics.
  destruct mo, mi; cbn; repeat split;
    rewrite <- ?app_assoc, ?app_nil_r; reflexivity.
Qed.

(** X12: the order of [unload].  The instance is destroyed before the
    compiled unit, each only if the controller holds it, and nothing
    else is called; [lastResult] survives the unload. *)
Theorem unload_order (fr : Frame P) :
  let fr' := execState unload fr in
  emitted (calls (world fr)) (calls (world fr'))
  = (match module_inst (this fr) with
     | Some i => [E_wasm_runtime_deinstantiate i]
     | None => []
     end
     ++ match module (this fr) with
        | Some u => [E_wasm_runtime_unload u]
        | None => []
        end)%list
  /\ getResult (this fr') = getResult (this fr).
Proof.
  cbv zeta. destruct (unload_outcomes fr) as (Ht & _ & Hc).
  rewrite Hc, emitted_app, Ht. split; reflexivity.
Qed.

Lemma load_statics
      (fr : Frame P) (wasm_bytes : list Byte.byte)
      (size stack_size heap_size : uint32_t) :
  same_statics
    (world fr)
    (world (execState (load wasm_bytes size stack_size heap_size) fr)).
Proof.
  destruct fr as [[mo mi ss eb lr ld] [p tr ini buf err tss]].
  unfold same_statics, execState, load.
  destruct mo, mi; symex; repeat split; reflexivity.
Qed.

Lemma callFunctionInternal_statics
      (fr : Frame P) (func_name : string) (argc : uint32_t) (argv : argv_t) :
  same_statics
    (world fr)
    (world (execState (callFunctionInternal func_name argc argv) fr)).
Proof.
  destruct fr as [[mo mi ss eb lr ld] [p tr ini buf err tss]],
           argv as [buf0|].
  all: unfold same_statics, execState, callFunctionInternal.
  all: symex; repeat split; reflexivity.
Qed.

Lemma callFunction_statics
      (fr : Frame P) (func_name : string) (argc : uint32_t) (argv : argv_t) :
  same_statics
    (world fr)
    (world (execState (callFunction func_name argc argv) fr)).
Proof.
  destruct fr as [[mo mi ss eb lr ld] [p tr ini buf err tss]],
           argv as [buf0|].
  all: unfold same_statics, execState, callFunction, wasm_thread_wrapper,
         callFunctionInternal.
  all: symex; repeat split; reflexivity.
Qed.

(** X13: the module operations never touch the runtime.  [load],
    [unload], [callFunction] and [callFunctionRaw] leave [initialized],
    the global heap buffer, the runtime error message and the thread
    stack size as they were, on every path. *)
Theorem module_operations_keep_runtime_statics (fr : Frame P) :
  (forall wasm_bytes size stack_size heap_size,
      same_statics
        (world fr)
        (world (execState
                  (load wasm_bytes size stack_size heap_size) fr)))
  /\ same_statics (world fr) (world (execState unload fr))
  /\ (forall func_name argc argv,
        same_statics
          (world fr)
          (world (execState (callFunction func_name argc argv) fr)))
  /\ (forall func_name argc argv,
        same_statics
          (world fr)
          (world (execState (callFunctionRaw func_name argc argv) fr))).
Proof.
  split; [ | split; [ | split ] ].
  - intros. apply load_statics.
  - apply (unload_outcomes fr).
  - intros. apply callFunction_statics.
  - intros. apply callFunctionInternal_statics.
Qed.

End ModuleProperties.

(** ** Calls, further *)

Lemma substring_length (n m : nat) (s : string) :
  String.length (substring n m s) <= m.
Proof.
  revert n m. induction s as [|c s IH]; intros n m.
  - destruct n, m; cbn; lia.
  - destruct n as [|n]; cbn.
    + destruct m as [|m]; cbn; [lia | ]. specialize (IH 0 m). lia.
    + apply IH.
Qed.

Lemma snprintf_fits (s : string) :
  String.length (snprintf s) <= ERROR_BUF_SIZE - 1.
Proof. apply substring_length. Qed.

Ltac symex_buf :=
  repeat (cbn -[snprintf]; first [inner_call | inner_test]);
  cbn -[snprintf].

Section CallProperties.
Context {P : Type} {PF : Platform P}.

(** X14: the error buffer never overflows.  Every message the wrapper
    or the engine leaves in it is cut to 127 characters, so a controller
    whose buffer fits keeps a fitting buffer through [load], [unload],
    [callFunction] and [callFunctionRaw], however long the function name
    or the engine's text; the constructed controller starts with a
    fitting (empty) buffer. *)
Theorem error_buf_never_overflows (fr : Frame P) :
  error_buf_fits (this fr) ->
  error_buf_fits WamrModule_ctor
  /\ (forall wasm_bytes size stack_size heap_size,
        error_buf_fits
          (this (execState
                   (load wasm_bytes size stack_size heap_size) fr)))
  /\ error_buf_fits (this (execState unload fr))
  /\ (forall func_name argc argv,
        error_buf_fits
          (this (execState (callFunction func_name argc argv) fr)))
  /\ (forall func_name argc argv,
        error_buf_fits
          (this (execState (callFunctionRaw func_name argc argv) fr))).
Proof.
  destruct fr as [[mo mi ss eb lr ld] w]. unfold error_buf_fits.
  cbn [this error_buf]. intros Hfit.
  split; [cbn; lia | ].
  split; [ | split; [ | split ] ].
  - intros. unfold execState, load.
    destruct mo, mi; symex_buf;
      try apply snprintf_fits; try assumption; cbn; lia.
  - destruct mo, mi; cbn; lia.
  - intros func_name argc argv. destruct argv.
    all: unfold execState, callFunction, wasm_thread_wrapper,
           callFunctionInternal.
    all: symex_buf; try apply snprintf_fits; assumption.
  - intros func_name argc argv. destruct argv.
    all: unfold execState, callFunctionRaw, callFunctionInternal.
    all: symex_buf; try apply snprintf_fits; assumption.
Qed.

Lemma callFunctionInternal_failure
      (fr : Frame P) (func_name : string) (argc : uint32_t) (argv : argv_t) :
  let r := runState (callFunctionInternal func_name argc argv) fr in
  fst (fst r) = false ->
  getError (this (snd r)) <> None
  /\ last_result (this (snd r)) = last_result (this fr).
Proof.
  destruct fr as [[mo mi ss eb lr ld] w], argv as [buf|].
  all: cbv zeta; unfold callFunctionInternal; symex.
  all: intros H; try discriminate H.
  all: split; [discriminate | reflexivity].
Qed.

Lemma callFunction_failure
      (fr : Frame P) (func_name : string) (argc : uint32_t) (argv : argv_t) :
  let r := runState (callFunction func_name argc argv) fr in
  fst (fst r) = false ->
  getError (this (snd r)) <> None
  /\ last_result (this (snd r)) = last_result (this fr).
Proof.
  destruct fr as [[mo mi ss eb lr ld] w], argv as [buf|].
  all: cbv zeta; unfold callFunction, wasm_thread_wrapper,
         callFunctionInternal; symex.
  all: intros H; try discriminate H.
  all: split; [discriminate | reflexivity].
Qed.

(** X15: a failed call always explains itself.  Whenever
    [callFunction] or [callFunctionRaw] returns false, [getError] is not
    null afterwards, and [getResult] still returns what it returned
    before the call. *)
Theorem failed_call_reports_and_keeps_result
        (fr : Frame P) (func_name : string) (argc : uint32_t)
        (argv : argv_t) :
  (let r := runState (callFunction func_name argc argv) fr in
   fst (fst r) = false ->
   getError (this (snd r)) <> None
   /\ getResult (this (snd r)) = getResult (this fr))
  /\ (let r := runState (callFunctionRaw func_name argc argv) fr in
      fst (fst r) = false ->
      getError (this (snd r)) <> None
      /\ getResult (this (snd r)) = getResult (this fr)).
Proof.
  split.
  - apply callFunction_failure.
  - apply callFunctionInternal_failure.
Qed.


Lemma callFunctionInternal_no_slot
      (fr fr' : Frame P) (func_name : string) (argc : uint32_t)
      (argv argv' : argv_t) :
  runState (callFunctionInternal func_name argc argv) fr
  = ((true, argv'), fr') ->
  argc = 0%N \/ argv = None ->
  last_result (this fr') = last_result (this fr).
Proof.
  destruct fr as [[mo mi ss eb lr ld] w], argv as [buf|].
  all: unfold callFunctionInternal; symex.
  all: intros H; inversion H; subst; clear H; cbn.
  all: intros [Hz | Hn]; try reflexivity; try discriminate.
  all: subst; cbn in *; discriminate.
Qed.

(** X17: a successful call without a result slot.  When
    [callFunction] or [callFunctionRaw] succeeds with [argc = 0] or a
    null [argv], [getResult] keeps returning the value of an earlier
    call. *)
Theorem successful_call_without_slot_keeps_result
        (fr fr' : Frame P) (func_name : string) (argc : uint32_t)
        (argv argv' : argv_t) :
  argc = 0%N \/ argv = None ->
  (runState (callFunctionRaw func_name argc argv) fr
   = ((true, argv'), fr') ->
   getResult (this fr') = getResult (this fr))
  /\ (runState (callFunction func_name argc argv) fr
      = ((true, argv'), fr') ->
      getResult (this fr') = getResult (this fr)).
Proof.
  intros Hslot. split.
  - intros H. apply (callFunctionInternal_no_slot _ _ _ _ _ _ H Hslot).
  - intros H.
    destruct (callFunction_success _ _ _ _ _ _ H)
      as (fr1 & fr1' & Hint & Hin & Hout).
    pose proof (callFunctionInternal_no_slot _ _ _ _ _ _ Hint Hslot) as K.
    unfold getResult. rewrite Hout, K, Hin. reflexivity.
Qed.

End CallProperties.

(** ** The two call paths *)

Section BridgeProperties.
Context {P : Type} {PF : Platform P}.

(** X18: the safe path is the raw path inside a worker thread.  When
    the three thread set-up calls succeed, [callFunction] returns what
    [callFunctionRaw] returns when run right after them, leaves the
    controller as that call leaves it, and adds only the join and the
    destruction of the attribute object afterwards. *)
Theorem callFunction_is_wrapped_callFunctionRaw
        (fr : Frame P) (func_name : string) (argc : uint32_t)
        (argv : argv_t) (p1 p2 p3 : P) :
  ext_pthread_attr_init (plat (world fr)) = (0%Z, p1) ->
  ext_pthread_attr_setstacksize (thread_stack_size (world fr)) p1
  = (0%Z, p2) ->
  ext_pthread_create p2 = (0%Z, p3) ->
  let raw := runState (callFunctionRaw func_name argc argv)
                      (mkFrame (this fr)
                               (after_thread_start (world fr) p3)) in
  runState (callFunction func_name argc argv) fr
  = (fst raw,
     mkFrame (this (snd raw)) (after_thread_end (world (snd raw)))).
Proof.
  destruct fr as [m [p tr ini buf err tss]].
  cbn [this world plat thread_stack_size].
  intros H1 H2 H3. cbv zeta.
  unfold callFunction, wasm_thread_wrapper, callFunctionRaw,
    after_thread_start, after_thread_end.
  cbn -[callFunctionInternal]. rewrite H1. cbn -[callFunctionInternal].
  rewrite H2. cbn -[callFunctionInternal]. rewrite H3.
  cbn -[callFunctionInternal].
  destruct (runState (callFunctionInternal func_name argc argv) _)
    as [[ok av] [m' [p' tr' ini' buf' err' tss']]].
  reflexivity.
Qed.

(** X19: when the worker thread cannot be set up.  Whichever of the
    three thread calls fails, [callFunction] returns false with that
    step's message, leaves the argument slots and the rest of the
    controller untouched even when a module is loaded, makes no engine
    call, and destroys the attribute object exactly when it had been
    initialised. *)
Theorem callFunction_thread_setup_failure
        (fr : Frame P) (func_name : string) (argc : uint32_t)
        (argv : argv_t) :
  let r := runState (callFunction func_name argc argv) fr in
  let seg := emitted (calls (world fr)) (calls (world (snd r))) in
  let tss := thread_stack_size (world fr) in
  (forall rc p1,
      ext_pthread_attr_init (plat (world fr)) = (rc, p1) ->
      rc <> 0%Z ->
      fst r = (false, argv)
      /\ this (snd r)
         = set_error_buf "Failed to initialize pthread attributes"
                         (this fr)
      /\ seg = [E_pthread_attr_init rc])
  /\ (forall rc p1 p2,
        ext_pthread_attr_init (plat (world fr)) = (0%Z, p1) ->
        ext_pthread_attr_setstacksize tss p1 = (rc, p2) ->
        rc <> 0%Z ->
        fst r = (false, argv)
        /\ this (snd r)
           = set_error_buf "Failed to set pthread stack size" (this fr)
        /\ seg = [E_pthread_attr_init 0%Z;
                  E_pthread_attr_setstacksize tss rc;
                  E_pthread_attr_destroy])
  /\ (forall rc p1 p2 p3,
        ext_pthread_attr_init (plat (world fr)) = (0%Z, p1) ->
        ext_pthread_attr_setstacksize tss p1 = (0%Z, p2) ->
        ext_pthread_create p2 = (rc, p3) ->
        rc <> 0%Z ->
        fst r = (false, argv)
        /\ this (snd r)
           = set_error_buf "Failed to create pthread for WASM execution"
                           (this fr)
        /\ seg = [E_pthread_attr_init 0%Z;
                  E_pthread_attr_setstacksize tss 0%Z;
                  E_pthread_attr_setdetachstate;
                  E_pthread_create rc;
                  E_pthread_attr_destroy]).
Proof.
  destruct fr as [m [p tr ini buf err tss]].
  cbn [this world plat thread_stack_size calls]. cbv zeta.
  split; [ | split ].
  - intros rc p1 H1 Hrc. unfold callFunction.
    cbn -[callFunctionInternal]. rewrite H1.
    destruct rc; [contradiction Hrc; reflexivity | | ].
    all: cbn; rewrite emitted_app; repeat split; reflexivity.
  - intros rc p1 p2 H1 H2 Hrc. unfold callFunction.
    cbn -[callFunctionInternal]. rewrite H1.
    cbn -[callFunctionInternal]. rewrite H2.
    destruct rc; [contradiction Hrc; reflexivity | | ].
    all: cbn; rewrite emitted_snoc3; repeat split; reflexivity.
  - intros rc p1 p2 p3 H1 H2 H3 Hrc. unfold callFunction.
    cbn -[callFunctionInternal]. rewrite H1.
    cbn -[callFunctionInternal]. rewrite H2.
    cbn -[callFunctionInternal]. rewrite H3.
    destruct rc; [contradiction Hrc; reflexivity | | ].
    all: cbn; repeat rewrite <- app_assoc; cbn [app]; rewrite emitted_app.
    all: repeat split; reflexivity.
Qed.

(** X20: the thread stack size is a setting of the safe path only.
    After [setThreadStackSize size], the next [callFunction] asks the
    thread library for exactly that stack size (when attribute
    initialisation succeeds); [callFunctionRaw] makes no thread call at
    all, whatever the setting. *)
Theorem thread_stack_size_is_used_by_safe_path_only
        (fr : Frame P) (size : N) (func_name : string) (argc : uint32_t)
        (argv : argv_t) :
  (forall p1,
      ext_pthread_attr_init (plat (world fr)) = (0%Z, p1) ->
      exists rc rest,
        emitted
          (calls (world fr))
          (calls (world (execState
                           (in_world (setThreadStackSize size) ;;
                            callFunction func_name argc argv) fr)))
        = E_pthread_attr_init 0%Z
          :: E_pthread_attr_setstacksize size rc :: rest)
  /\ forallb (fun c => negb (is_pthread_call c))
             (emitted
                (calls (world fr))
                (calls (world (execState
                                 (callFunctionRaw func_name argc argv)
                                 fr))))
     = true.
Proof.
  destruct fr as [[mo mi ss eb lr ld] [p tr ini buf err tss]].
  cbn [world plat calls]. split.
  - intros p1 H1. destruct argv.
    all: unfold execState, setThreadStackSize, callFunction,
           wasm_thread_wrapper, callFunctionInternal.
    all: cbn; rewrite H1; symex.
    all: repeat rewrite <- app_assoc; cbn [app]; rewrite emitted_app.
    all: eexists; eexists; reflexivity.
  - destruct argv.
    all: unfold execState, callFunctionRaw, callFunctionInternal; symex.
    all: repeat rewrite <- app_assoc; cbn [app];
      rewrite ?emitted_app, ?emitted_same; reflexivity.
Qed.

Lemma callFunctionInternal_first_call
      (fr : Frame P) (func_name : string) (argc : uint32_t) (argv : argv_t)
      (inst : handle) :
  loaded (this fr) = true ->
  module_inst (this fr) = Some inst ->
  exists env rest,
    calls (world (execState (callFunctionInternal func_name argc argv) fr))
    = (calls (world fr)
       ++ E_wasm_runtime_create_exec_env
            inst (stack_size_for_exec_env (this fr)) env :: rest)%list.
Proof.
  destruct fr as [[mo mi ss eb lr ld] [p tr ini buf err tss]].
  cbn [this world loaded module_inst stack_size_for_exec_env calls].
  intros -> ->. destruct argv.
  all: unfold execState, callFunctionInternal; symex.
  all: repeat rewrite <- app_assoc; cbn [app].
  all: eexists; eexists; reflexivity.
Qed.

(** X21: the stack size given to [load] is the one a call uses.  After
    a successful [load] with [stack_size], the controller holds an
    instance, and the first thing any [callFunctionRaw] does is to ask
    the engine for an execution environment on that instance with
    exactly [stack_size]. *)
Theorem load_stack_size_reaches_exec_env
        (fr : Frame P) (wasm_bytes : list Byte.byte)
        (size stack_size heap_size : uint32_t) :
  evalState (load wasm_bytes size stack_size heap_size) fr = true ->
  let fr1 := execState (load wasm_bytes size stack_size heap_size) fr in
  exists inst,
    module_inst (this fr1) = Some inst
    /\ forall func_name argc argv,
        exists env rest,
          emitted
            (calls (world fr1))
            (calls (world (execState
                             (callFunctionRaw func_name argc argv) fr1)))
          = E_wasm_runtime_create_exec_env inst stack_size env :: rest.
Proof.
  intros Hok. cbv zeta.
  destruct (load_success _ _ _ _ _ Hok) as (_ & Hl & Hi & Hs).
  remember (execState (load wasm_bytes size stack_size heap_size) fr)
    as fr1.
  unfold isLoaded in Hi.
  destruct (module_inst (this fr1)) as [inst|] eqn:Hinst;
    [clear Hi | discriminate Hi].
  exists inst. split; [reflexivity | ].
  intros func_name argc argv. unfold callFunctionRaw.
  destruct (callFunctionInternal_first_call
              fr1 func_name argc argv inst Hl Hinst) as (env & rest & E).
  exists env, rest. rewrite E, emitted_app, Hs. reflexivity.
Qed.

End BridgeProperties.

(** ** What is held: calls, load and unload, and the callers *)

Section HoldingProperties.
Context {P : Type} {PF : Platform P}.

Lemma preserves_holdings_refl (fr : Frame P) : preserves_holdings fr fr.
Proof. unfold preserves_holdings, same_statics. repeat split. Qed.

Lemma preserves_holdings_trans (a b c : Frame P) :
  preserves_holdings a b -> preserves_holdings b c -> preserves_holdings a c.
Proof.
  unfold preserves_holdings, same_statics.
  intros (H1 & H2 & (H3 & H4 & H5 & H6) & H7)
         (K1 & K2 & (K3 & K4 & K5 & K6) & K7).
  repeat split; congruence.
Qed.

Lemma callFunctionInternal_resources
      (fr : Frame P) (func_name : string) (argc : uint32_t) (argv : argv_t) :
  resources
    (calls (world (execState (callFunctionInternal func_name argc argv) fr)))
  = resources (calls (world fr)).
Proof.
  destruct fr as [[mo mi ss eb lr ld] [p tr ini buf err tss]],
           argv as [buf0|].
  all: unfold execState, callFunctionInternal; symex; tidy.
  all: repeat rewrite <- app_assoc; cbn [app].
  all: try reflexivity.
  all: held; reflexivity.
Qed.

Lemma callFunction_resources
      (fr : Frame P) (func_name : string) (argc : uint32_t) (argv : argv_t) :
  resources (calls (world (execState (callFunction func_name argc argv) fr)))
  = resources (calls (world fr)).
Proof.
  destruct fr as [[mo mi ss eb lr ld] [p tr ini buf err tss]],
           argv as [buf0|].
  all: unfold execState, callFunction, wasm_thread_wrapper,
         callFunctionInternal; symex; tidy.
  all: repeat rewrite <- app_assoc; cbn [app].
  all: try reflexivity.
  all: held; reflexivity.
Qed.

Lemma callFunctionRaw_preserves_holdings
      (fr : Frame P) (func_name : string) (argc : uint32_t) (argv : argv_t) :
  preserves_holdings fr (execState (callFunctionRaw func_name argc argv) fr).
Proof.
  unfold callFunctionRaw.
  destruct (callFunctionInternal_keeps_handles fr func_name argc argv)
    as (H1 & H2 & _).
  repeat split; try assumption.
  - apply callFunctionInternal_statics.
  - apply callFunctionInternal_statics.
  - apply callFunctionInternal_statics.
  - apply callFunctionInternal_statics.
  - apply callFunctionInternal_resources.
Qed.

Lemma callFunction_preserves_holdings
      (fr : Frame P) (func_name : string) (argc : uint32_t) (argv : argv_t) :
  preserves_holdings fr (execState (callFunction func_name argc argv) fr).
Proof.
  destruct (callFunction_keeps_handles fr func_name argc argv)
    as (H1 & H2 & _).
  repeat split; try assumption.
  - apply callFunction_statics.
  - apply callFunction_statics.
  - apply callFunction_statics.
  - apply callFunction_statics.
  - apply callFunction_resources.
Qed.

(** X22: a call holds nothing when it returns.  On every path,
    [callFunction] and [callFunctionRaw] return with the same heap
    buffers, compiled units, instances, execution environments, thread
    attribute objects and worker threads outstanding as before the call:
    the worker thread has been joined and the attribute object destroyed
    whenever they were created. *)
Theorem calls_hold_nothing
        (fr : Frame P) (func_name : string) (argc : uint32_t)
        (argv : argv_t) :
  resources (calls (world (execState (callFunction func_name argc argv) fr)))
  = resources (calls (world fr))
  /\ resources
       (calls (world (execState (callFunctionRaw func_name argc argv) fr)))
     = resources (calls (world fr)).
Proof.
  split.
  - apply callFunction_resources.
  - apply callFunctionInternal_resources.
Qed.

Lemma unload_resources (fr : Frame P) :
  resources (calls (world (execState unload fr)))
  = drop_unit_if (module (this fr))
      (drop_inst_if (module_inst (this fr)) (resources (calls (world fr)))).
Proof.
  destruct (unload_outcomes fr) as (_ & _ & Hc). rewrite Hc.
  unfold resources. rewrite !fold_left_app.
  destruct (module (this fr)), (module_inst (this fr)); reflexivity.
Qed.

Lemma load_outcomes_null
      (fr : Frame P) (wasm_bytes : list Byte.byte)
      (size stack_size heap_size : uint32_t) :
  module (this fr) = None ->
  module_inst (this fr) = None ->
  let r := runState (load wasm_bytes size stack_size heap_size) fr in
  (fst r = false
   /\ module (this (snd r)) = None
   /\ module_inst (this (snd r)) = None
   /\ resources (calls (world (snd r))) = resources (calls (world fr)))
  \/ (fst r = true
      /\ exists u i,
          module (this (snd r)) = Some u
          /\ module_inst (this (snd r)) = Some i
          /\ resources (calls (world (snd r)))
             = hold_inst i (hold_unit u (resources (calls (world fr))))).
Proof.
  destruct fr as [[mo mi ss eb lr ld] [p tr ini buf err tss]].
  cbn [this module module_inst]. intros -> ->. cbv zeta.
  unfold load. symex.
  all: try (left; repeat split; try reflexivity; held; reflexivity).
  right. split; [reflexivity | ]. eexists; eexists.
  repeat split. held; reflexivity.
Qed.

Lemma drop_hold_module (u i : handle) (r : Res) :
  drop_unit u (drop_inst i (hold_inst i (hold_unit u r))) = r.
Proof.
  destruct r. unfold drop_unit, drop_inst, hold_inst, hold_unit. cbn.
  rewrite !Pos.eqb_refl. reflexivity.
Qed.

Lemma drop_hold_runtime (b : handle) (r : Res) :
  drop_buf b (drop_engine (hold_engine (hold_buf b r))) = r.
Proof.
  destruct r. unfold drop_buf, drop_engine, hold_engine, hold_buf. cbn.
  rewrite !Pos.eqb_refl. reflexivity.
Qed.

(** X23: [load] followed by [unload] leaks nothing.  Whatever the
    engine answers to the load (runtime not ready, compile error,
    instantiation error or success), after the following [unload]
    exactly the same units and instances are outstanding as after an
    [unload] alone. *)
Theorem load_then_unload_leaks_nothing
        (fr : Frame P) (wasm_bytes : list Byte.byte)
        (size stack_size heap_size : uint32_t) :
  resources
    (calls (world (execState
                     (load wasm_bytes size stack_size heap_size ;; unload)
                     fr)))
  = resources (calls (world (execState unload fr))).
Proof.
  rewrite (execState_seq (load wasm_bytes size stack_size heap_size)
                         unload fr).
  rewrite unload_resources.
  destruct (initialized (world fr)) eqn:Hini.
  - destruct fr as [[mo mi ss eb lr ld] [p tr ini buf err tss]].
    cbn in Hini. subst ini.
    unfold execState, load.
    destruct mo, mi; symex.
    all: repeat rewrite <- app_assoc; cbn [app].
    all: held; reflexivity.
  - unfold execState at 1 2 3.
    rewrite (load_not_initialized fr _ _ _ _ Hini). cbn [snd this world].
    rewrite unload_resources.
    destruct (this fr); reflexivity.
Qed.

End HoldingProperties.

(** ** The callers *)

Section CallerProperties.
Context {P : Type} {PF : Platform P}.

Lemma fibonacci_rounds_preserves_holdings
      (test_values : list uint32_t) (fr : Frame P) :
  preserves_holdings fr (execState (fibonacci_rounds test_values) fr).
Proof.
  revert fr. induction test_values as [|n rest IH]; intros fr.
  - apply preserves_holdings_refl.
  - cbn [fibonacci_rounds].
    rewrite (execState_seq (callFunction "fibonacci" 1%N (Some [n]))
                           (fibonacci_rounds rest) fr).
    eapply preserves_holdings_trans; [ | apply IH ].
    apply callFunction_preserves_holdings.
Qed.

Lemma raw_api_rounds_preserves_holdings
      (remaining : nat) (i : Z) (fr : Frame P) :
  preserves_holdings fr (execState (raw_api_rounds remaining i) fr).
Proof.
  revert i fr. induction remaining as [|k IH]; intros i fr.
  - apply preserves_holdings_refl.
  - pose proof (callFunctionRaw_preserves_holdings
                  fr "add" 2%N (Some [Z.to_N i; Z.to_N (i + 1)])) as Hc.
    unfold execState in *. cbn [raw_api_rounds].
    cbn -[callFunctionRaw raw_api_rounds].
    destruct (runState (callFunctionRaw "add" 2%N
                          (Some [Z.to_N i; Z.to_N (i + 1)])) fr)
      as [[ok av] fr1].
    cbn [fst snd negb] in *. destruct ok; cbn [negb].
    + eapply preserves_holdings_trans; [exact Hc | apply IH].
    + exact Hc.
Qed.

(** X24: the raw-API worker loop.  [raw_api_thread] with no iterations
    to do (zero or negative) does nothing at all; with any number of
    iterations it returns with the controller's handles, the runtime
    statics and everything held as before; and when its first call
    fails it stops there, having made that one call only. *)
Theorem raw_api_thread_behaviour (fr : Frame P) (iterations : Z) :
  ((iterations <= 0)%Z -> runState (raw_api_thread iterations) fr = (tt, fr))
  /\ preserves_holdings fr (execState (raw_api_thread iterations) fr)
  /\ ((0 < iterations)%Z ->
      fst (evalState (callFunctionRaw "add" 2%N (Some [0; 1]%N)) fr)
      = false ->
      execState (raw_api_thread iterations) fr
      = execState (callFunctionRaw "add" 2%N (Some [0; 1]%N)) fr).
Proof.
  unfold raw_api_thread. split; [ | split ].
  - intros H. replace (Z.to_nat iterations) with 0 by lia. reflexivity.
  - apply raw_api_rounds_preserves_holdings.
  - intros Hpos Hfail.
    destruct (Z.to_nat iterations) as [|k] eqn:Hk; [lia | ].
    unfold execState, evalState in *. cbn [raw_api_rounds].
    cbn -[callFunctionRaw raw_api_rounds].
    change (Z.to_N 0) with 0%N. change (Z.to_N 1) with 1%N.
    destruct (runState (callFunctionRaw "add" 2%N (Some [0%N; 1%N])) fr)
      as [[ok av] fr1].
    cbn [fst snd] in *. subst ok. reflexivity.
Qed.

Lemma run_bind_snd {S A B : Type}
      (c : state S A) (k : A -> state S B) (s : S) :
  snd (runState (bind c k) s)
  = snd (runState (k (fst (runState c s))) (snd (runState c s))).
Proof. cbn. destruct (runState c s). reflexivity. Qed.

Lemma in_world_snd {A : Type} (c : RT A) (fr : Frame P) :
  snd (runState (in_world c) fr)
  = mkFrame (this fr) (snd (runState c (world fr))).
Proof.
  unfold in_world. cbn. destruct (runState c (world fr)). reflexivity.
Qed.

Lemma module_scope_snd {A : Type} (body : Method A) (w : World P) :
  snd (runState (module_scope body) w)
  = world (snd (runState WamrModule_dtor
                         (snd (runState body (mkFrame WamrModule_ctor w))))).
Proof.
  unfold module_scope. cbn -[WamrModule_dtor WamrModule_ctor].
  destruct (runState body (mkFrame WamrModule_ctor w)) as [a fr].
  cbn -[WamrModule_dtor].
  destruct (runState WamrModule_dtor fr) as [[] fr']. reflexivity.
Qed.

Lemma end_resources (w : World P) (b : handle) :
  initialized w = true ->
  global_heap_buf w = Some b ->
  let w' := snd (runState end_ w) in
  initialized w' = false
  /\ global_heap_buf w' = None
  /\ thread_stack_size w' = thread_stack_size w
  /\ resources (calls w') = drop_buf b (drop_engine (resources (calls w))).
Proof.
  intros Hini Hbuf. cbv zeta.
  destruct (end_outcomes w) as (H1 & _ & H3 & _ & H5).
  destruct (H5 Hini) as [Hb Hc]. unfold execState in *.
  repeat split; try assumption.
  rewrite Hc, Hbuf. unfold resources. rewrite fold_left_app. reflexivity.
Qed.

Lemma dtor_null (fr : Frame P) :
  module (this fr) = None ->
  module_inst (this fr) = None ->
  same_statics (world fr) (world (snd (runState WamrModule_dtor fr)))
  /\ calls (world (snd (runState WamrModule_dtor fr))) = calls (world fr).
Proof.
  intros Hm Hi. unfold WamrModule_dtor.
  destruct (unload_outcomes fr) as (_ & Hs & Hc). unfold execState in *.
  split; [exact Hs | ]. rewrite Hc, Hm, Hi. cbn. apply app_nil_r.
Qed.

(** Leaving [testWithHeapSize]: [end], then the destructor of a
    controller that holds nothing. *)
Lemma end_then_dtor (fr : Frame P) (b : handle) :
  module (this fr) = None ->
  module_inst (this fr) = None ->
  initialized (world fr) = true ->
  global_heap_buf (world fr) = Some b ->
  let w' := world (snd (runState WamrModule_dtor
                                 (snd (runState (in_world end_) fr)))) in
  initialized w' = false
  /\ global_heap_buf w' = None
  /\ thread_stack_size w' = thread_stack_size (world fr)
  /\ resources (calls w')
     = drop_buf b (drop_engine (resources (calls (world fr)))).
Proof.
  intros Hm Hi Hini Hbuf. cbv zeta.
  rewrite in_world_snd.
  destruct (end_resources (world fr) b Hini Hbuf) as (E1 & E2 & E3 & E4).
  destruct (dtor_null (mkFrame (this fr) (snd (runState end_ (world fr))))
                      Hm Hi) as ((S1 & S2 & _ & S4) & Hc).
  cbn [world] in *. rewrite S1, S2, S4, Hc. repeat split; assumption.
Qed.

(** X25: [testWithHeapSize] cleans up after itself.  Started on a
    runtime that is not initialized and holds no buffer, it returns, on
    every path (runtime or load failure, any mix of failing and
    succeeding calls), with the runtime not initialized, no global
    buffer, and exactly the buffers, engine initialisations, units,
    instances, execution environments and threads outstanding that were
    outstanding before; the thread stack size is untouched. *)
Theorem testWithHeapSize_releases_everything
        (w : World P) (runtime_heap module_heap : uint32_t) :
  initialized w = false ->
  global_heap_buf w = None ->
  let w' := execState (testWithHeapSize runtime_heap module_heap) w in
  initialized w' = false
  /\ global_heap_buf w' = None
  /\ thread_stack_size w' = thread_stack_size w
  /\ resources (calls w') = resources (calls w).
Proof.
  intros Hini Hbuf. cbv zeta.
  destruct (begin_outcomes w runtime_heap Hini Hbuf) as [Htss [Hb | Hb]].
  - destruct Hb as (Hf & H1 & H2 & _ & H4).
    unfold execState, testWithHeapSize.
    rewrite (run_bind_snd (begin runtime_heap) _ w), Hf.
    cbn -[begin]. repeat split; assumption.
  - destruct Hb as (Ht & H1 & _ & _ & b & H2 & H3).
    unfold execState, testWithHeapSize.
    rewrite (run_bind_snd (begin runtime_heap) _ w), Ht. cbn [negb].
    remember (snd (runState (begin runtime_heap) w)) as w1.
    rewrite module_scope_snd. cbv zeta.
    set (fr1 := mkFrame WamrModule_ctor w1).
    rewrite (run_bind_snd
               (load memory_test_wasm memory_test_wasm_len
                     (16 * 1024)%N module_heap) _ fr1).
    pose proof (load_statics fr1 memory_test_wasm memory_test_wasm_len
                             (16 * 1024)%N module_heap)
      as (L1 & L2 & _ & L4).
    destruct (load_outcomes_null fr1 memory_test_wasm memory_test_wasm_len
                                 (16 * 1024)%N module_heap eq_refl eq_refl)
      as [Hl | Hl].
    + destruct Hl as (Hf & Hm & Hi & Hr). rewrite Hf. cbn [negb].
      unfold execState in *.
      remember (snd (runState
                       (load memory_test_wasm memory_test_wasm_len
                             (16 * 1024)%N module_heap) fr1)) as fr2.
      cbn [world fr1] in L1, L2, L4, Hr.
      rewrite H1 in L1. rewrite H2 in L2.
      destruct (end_then_dtor fr2 b Hm Hi L1 L2) as (E1 & E2 & E3 & E4).
      repeat split; try assumption.
      * congruence.
      * rewrite E4, Hr, H3. apply drop_hold_runtime.
    + destruct Hl as (Ht2 & u & i & Hm & Hi & Hr). rewrite Ht2. cbn [negb].
      unfold execState in *.
      remember (snd (runState
                       (load memory_test_wasm memory_test_wasm_len
                             (16 * 1024)%N module_heap) fr1)) as fr2.
      cbn [world fr1] in L1, L2, L4, Hr.
      rewrite H1 in L1. rewrite H2 in L2.
      rewrite (run_bind_snd (callFunction "get_memsize" 0%N None) _ fr2).
      pose proof (callFunction_preserves_holdings
                    fr2 "get_memsize" 0%N None) as C1.
      unfold execState in C1.
      remember (snd (runState (callFunction "get_memsize" 0%N None) fr2))
        as fr3.
      rewrite (run_bind_snd (fibonacci_rounds [10; 15; 20; 25]%N) _ fr3).
      pose proof (fibonacci_rounds_preserves_holdings
                    [10; 15; 20; 25]%N fr3) as C2.
      unfold execState in C2.
      remember (snd (runState (fibonacci_rounds [10; 15; 20; 25]%N) fr3))
        as fr4.
      pose proof (preserves_holdings_trans _ _ _ C1 C2)
        as (K1 & K2 & (K3 & K4 & _ & K6) & K7).
      rewrite (run_bind_snd unload _ fr4).
      destruct (unload_outcomes fr4) as (U1 & (U2 & U3 & _ & U5) & _).
      pose proof (unload_resources fr4) as U6.
      unfold execState in *.
      remember (snd (runState unload fr4)) as fr5.
      assert (Hm5 : module (this fr5) = None) by (rewrite U1; reflexivity).
      assert (Hi5 : module_inst (this fr5) = None)
        by (rewrite U1; reflexivity).
      assert (Hini5 : initialized (world fr5) = true) by congruence.
      assert (Hbuf5 : global_heap_buf (world fr5) = Some b) by congruence.
      destruct (end_then_dtor fr5 b Hm5 Hi5 Hini5 Hbuf5)
        as (E1 & E2 & E3 & E4).
      repeat split; try assumption.
      * congruence.
      * rewrite E4, U6, K1, K2, Hm, Hi, K7, Hr. cbn [drop_unit_if drop_inst_if].
        rewrite drop_hold_module, H3. apply drop_hold_runtime.
Qed.

End CallerProperties.

(** ** The further properties at work on the small platform *)

Lemma begin_failure_fails_closed_witness :
  initialized world0 = false
  /\ global_heap_buf world0 = None
  /\ evalState (begin 1024%N) world0 = false
  /\ resources (calls (execState (begin 1024%N) world0))
     = resources (calls world0).
Proof.
  assert (H1 : initialized world0 = false) by reflexivity.
  assert (H2 : global_heap_buf world0 = None) by reflexivity.
  assert (H3 : evalState (begin 1024%N) world0 = false)
    by (vm_compute; reflexivity).
  split; [exact H1 | split; [exact H2 | split; [exact H3 | ] ] ].
  destruct (begin_failure_fails_closed world0 1024%N H1 H2 H3)
    as (_ & _ & _ & H).
  exact H.
Defined.

Lemma begin_success_holds_one_buffer_witness :
  initialized world0 = false
  /\ global_heap_buf world0 = None
  /\ evalState (begin WAMR_DEFAULT_HEAP_POOL) world0 = true
  /\ exists b,
      global_heap_buf (execState (begin WAMR_DEFAULT_HEAP_POOL) world0)
      = Some b
      /\ resources (calls (execState (begin WAMR_DEFAULT_HEAP_POOL) world0))
         = hold_engine (hold_buf b (resources (calls world0))).
Proof.
  assert (H1 : initialized world0 = false) by reflexivity.
  assert (H2 : global_heap_buf world0 = None) by reflexivity.
  assert (H3 : evalState (begin WAMR_DEFAULT_HEAP_POOL) world0 = true)
    by (vm_compute; reflexivity).
  split; [exact H1 | split; [exact H2 | split; [exact H3 | ] ] ].
  destruct (begin_success_holds_one_buffer
              world0 WAMR_DEFAULT_HEAP_POOL H1 H2 H3) as (_ & _ & H).
  exact H.
Defined.

Lemma begin_allocation_order_witness :
  initialized world0 = false
  /\ (WAMR_MIN_HEAP_SIZE <= WAMR_DEFAULT_HEAP_POOL)%N
  /\ existsb is_malloc_call
       (emitted (calls world0)
                (calls (snd (runState (begin WAMR_DEFAULT_HEAP_POOL)
                                      world0))))
     = false
  /\ exists ok,
      fst (runState (begin WAMR_DEFAULT_HEAP_POOL) world0) = ok
      /\ global_heap_buf (snd (runState (begin WAMR_DEFAULT_HEAP_POOL)
                                        world0))
         = (if ok then Some 10%positive else None)
      /\ emitted (calls world0)
                 (calls (snd (runState (begin WAMR_DEFAULT_HEAP_POOL)
                                       world0)))
         = E_heap_caps_malloc WAMR_DEFAULT_HEAP_POOL (Some 10%positive)
           :: E_wasm_runtime_full_init 10%positive WAMR_DEFAULT_HEAP_POOL ok
           :: (if ok then [] else [E_free 10%positive]).
Proof.
  assert (H1 : initialized world0 = false) by reflexivity.
  assert (H2 : (WAMR_MIN_HEAP_SIZE <= WAMR_DEFAULT_HEAP_POOL)%N)
    by (vm_compute; discriminate).
  split; [exact H1 | split; [exact H2 | ] ].
  destruct (begin_allocation_order world0 WAMR_DEFAULT_HEAP_POOL H1 H2)
    as (H & _ & _).
  apply (H 10%positive (mkSim 11%positive true true true true)).
  vm_compute. reflexivity.
Defined.

Lemma end_tears_down_once_witness :
  initialized world_begun = true
  /\ emitted (calls world_begun) (calls (execState end_ world_begun))
     = [E_wasm_runtime_destroy; E_free 10%positive].
Proof.
  assert (H1 : initialized world_begun = true) by reflexivity.
  split; [exact H1 | ].
  destruct (end_tears_down_once world_begun) as (_ & _ & _ & H).
  destruct (H H1) as [_ H2]. exact H2.
Defined.

Lemma runtime_error_is_sticky_witness :
  evalState WamrRuntime_getError world_refused
  = Some "Heap pool size too small (min 16KB)"
  /\ evalState (begin WAMR_DEFAULT_HEAP_POOL) world_refused = true
  /\ evalState WamrRuntime_getError
       (execState (begin WAMR_DEFAULT_HEAP_POOL) world_refused)
     = evalState WamrRuntime_getError world_refused.
Proof.
  assert (H1 : evalState (begin WAMR_DEFAULT_HEAP_POOL) world_refused
               = true) by (vm_compute; reflexivity).
  split; [reflexivity | split; [exact H1 | ] ].
  destruct (runtime_error_is_sticky world_refused WAMR_DEFAULT_HEAP_POOL)
    as [H _].
  exact (H H1).
Defined.

Lemma runtime_inv_preserved_witness :
  runtime_inv world_begun
  /\ runtime_inv (execState (begin 0%N) world_begun)
  /\ runtime_inv (execState end_ world_begun).
Proof.
  assert (H1 : runtime_inv world_begun) by reflexivity.
  split; [exact H1 | ].
  exact (runtime_inv_preserved world_begun 0%N H1).
Defined.

Lemma begin_end_round_trip_witness :
  initialized world0 = false
  /\ global_heap_buf world0 = None
  /\ resources
       (calls (execState (begin WAMR_DEFAULT_HEAP_POOL ;; end_) world0))
     = resources (calls world0).
Proof.
  assert (H1 : initialized world0 = false) by reflexivity.
  assert (H2 : global_heap_buf world0 = None) by reflexivity.
  split; [exact H1 | split; [exact H2 | ] ].
  destruct (begin_end_round_trip world0 WAMR_DEFAULT_HEAP_POOL H1 H2)
    as (_ & _ & H).
  exact H.
Defined.

Lemma load_requires_runtime_witness :
  initialized (world frame_unbegun) = false
  /\ runState (load tiny_wasm 8%N WAMR_DEFAULT_STACK_SIZE
                    WAMR_DEFAULT_HEAP_SIZE) frame_unbegun
     = (false,
        mkFrame (set_error_buf "WAMR runtime not initialized"
                               (this frame_unbegun))
                (world frame_unbegun)).
Proof.
  assert (H1 : initialized (world frame_unbegun) = false) by reflexivity.
  split; [exact H1 | ].
  exact (load_requires_runtime frame_unbegun tiny_wasm 8%N
           WAMR_DEFAULT_STACK_SIZE WAMR_DEFAULT_HEAP_SIZE H1).
Defined.

Lemma load_compile_failure_witness :
  initialized (world frame_new) = true
  /\ this (snd (runState (load [] 0%N WAMR_DEFAULT_STACK_SIZE
                               WAMR_DEFAULT_HEAP_SIZE) frame_new))
     = mkWamrModule None None 0%N (snprintf "magic header not detected")
                    (last_result (this frame_new)) false.
Proof.
  assert (H1 : initialized (world frame_new) = true) by reflexivity.
  split; [exact H1 | ].
  destruct (load_compile_failure
              frame_new [] 0%N WAMR_DEFAULT_STACK_SIZE
              WAMR_DEFAULT_HEAP_SIZE "magic header not detected"
              (plat (world frame_new)) H1)
    as (_ & H & _); [vm_compute; reflexivity | ].
  exact H.
Defined.

Lemma load_success_state_witness :
  initialized (world frame_new) = true
  /\ this (snd (runState (load tiny_wasm 8%N WAMR_DEFAULT_STACK_SIZE
                               WAMR_DEFAULT_HEAP_SIZE) frame_new))
     = mkWamrModule (Some 11%positive) (Some 12%positive)
                    WAMR_DEFAULT_STACK_SIZE ""
                    (last_result (this frame_new)) true.
Proof.
  assert (H1 : initialized (world frame_new) = true) by reflexivity.
  split; [exact H1 | ].
  destruct (load_success_state
              frame_new tiny_wasm 8%N WAMR_DEFAULT_STACK_SIZE
              WAMR_DEFAULT_HEAP_SIZE 11%positive 12%positive
              (mkSim 12%positive true true true true)
              (mkSim 13%positive true true true true) H1)
    as (_ & H & _);
    [vm_compute; reflexivity | vm_compute; reflexivity | ].
  exact H.
Defined.

Lemma error_buf_never_overflows_witness :
  error_buf_fits (this frame_loaded)
  /\ error_buf_fits
       (this (execState (callFunctionRaw "doesNotExist" 0%N None)
                        frame_loaded)).
Proof.
  assert (H1 : error_buf_fits (this frame_loaded))
    by (vm_compute; repeat constructor).
  split; [exact H1 | ].
  destruct (error_buf_never_overflows frame_loaded H1)
    as (_ & _ & _ & _ & H).
  exact (H "doesNotExist" 0%N None).
Defined.

Lemma failed_call_reports_and_keeps_result_witness :
  fst (fst (runState (callFunctionRaw "doesNotExist" 0%N None)
                     frame_loaded)) = false
  /\ getError (this (snd (runState (callFunctionRaw "doesNotExist" 0%N None)
                                   frame_loaded))) <> None.
Proof.
  assert (H1 : fst (fst (runState (callFunctionRaw "doesNotExist" 0%N None)
                                  frame_loaded)) = false)
    by (vm_compute; reflexivity).
  split; [exact H1 | ].
  destruct (failed_call_reports_and_keeps_result
              frame_loaded "doesNotExist" 0%N None) as [_ H].
  exact (proj1 (H H1)).
Defined.


Lemma successful_call_without_slot_keeps_result_witness :
  (0%N = 0%N \/ Some [42; 58]%N = None)
  /\ getResult (this (snd (runState
                            (callFunctionRaw "add" 0%N (Some [42; 58]%N))
                            frame_loaded)))
     = getResult (this frame_loaded).
Proof.
  assert (H1 : 0%N = 0%N \/ Some [42; 58]%N = @None (list uint32_t))
    by (left; reflexivity).
  split; [exact H1 | ].
  destruct (successful_call_without_slot_keeps_result
              frame_loaded
              (snd (runState (callFunctionRaw "add" 0%N (Some [42; 58]%N))
                             frame_loaded))
              "add" 0%N (Some [42; 58]%N) (Some [100; 58]%N) H1)
    as [H _].
  apply H. vm_compute. reflexivity.
Defined.

Lemma callFunction_is_wrapped_callFunctionRaw_witness :
  ext_pthread_attr_init (plat (world frame_loaded))
  = (0%Z, plat (world frame_loaded))
  /\ fst (runState (callFunction "add" 2%N (Some [42; 58]%N)) frame_loaded)
     = fst (runState
              (callFunctionRaw "add" 2%N (Some [42; 58]%N))
              (mkFrame (this frame_loaded)
                       (after_thread_start (world frame_loaded)
                                           (plat (world frame_loaded))))).
Proof.
  assert (H1 : ext_pthread_attr_init (plat (world frame_loaded))
               = (0%Z, plat (world frame_loaded)))
    by (vm_compute; reflexivity).
  split; [exact H1 | ].
  rewrite (callFunction_is_wrapped_callFunctionRaw
             frame_loaded "add" 2%N (Some [42; 58]%N)
             (plat (world frame_loaded)) (plat (world frame_loaded))
             (plat (world frame_loaded)) H1);
    [reflexivity | vm_compute; reflexivity | vm_compute; reflexivity].
Defined.

Lemma callFunction_thread_setup_failure_witness :
  ext_pthread_create sim_no_thread = (ENOMEM, sim_no_thread)
  /\ ENOMEM <> 0%Z
  /\ this (snd (runState (callFunction "add" 2%N (Some [42; 58]%N))
                         (on_platform sim_no_thread frame_loaded)))
     = set_error_buf "Failed to create pthread for WASM execution"
                     (this (on_platform sim_no_thread frame_loaded)).
Proof.
  assert (H1 : ext_pthread_create sim_no_thread = (ENOMEM, sim_no_thread))
    by (vm_compute; reflexivity).
  assert (H2 : ENOMEM <> 0%Z) by discriminate.
  split; [exact H1 | split; [exact H2 | ] ].
  destruct (callFunction_thread_setup_failure
              (on_platform sim_no_thread frame_loaded)
              "add" 2%N (Some [42; 58]%N)) as (_ & _ & H).
  destruct (H ENOMEM sim_no_thread sim_no_thread sim_no_thread)
    as (_ & Hthis & _);
    [vm_compute; reflexivity | vm_compute; reflexivity | exact H1
     | exact H2 | ].
  exact Hthis.
Defined.

Lemma thread_stack_size_is_used_by_safe_path_only_witness :
  ext_pthread_attr_init (plat (world frame_loaded))
  = (0%Z, plat (world frame_loaded))
  /\ exists rc rest,
      emitted
        (calls (world frame_loaded))
        (calls (world (execState
                         (in_world (setThreadStackSize 65536%N) ;;
                          callFunction "add" 2%N (Some [42; 58]%N))
                         frame_loaded)))
      = E_pthread_attr_init 0%Z
        :: E_pthread_attr_setstacksize 65536%N rc :: rest.
Proof.
  assert (H1 : ext_pthread_attr_init (plat (world frame_loaded))
               = (0%Z, plat (world frame_loaded)))
    by (vm_compute; reflexivity).
  split; [exact H1 | ].
  destruct (thread_stack_size_is_used_by_safe_path_only
              frame_loaded 65536%N "add" 2%N (Some [42; 58]%N)) as [H _].
  exact (H (plat (world frame_loaded)) H1).
Defined.

Lemma load_stack_size_reaches_exec_env_witness :
  evalState (load tiny_wasm 8%N 4096%N WAMR_DEFAULT_HEAP_SIZE) frame_new
  = true
  /\ exists inst,
      module_inst
        (this (execState (load tiny_wasm 8%N 4096%N WAMR_DEFAULT_HEAP_SIZE)
                         frame_new)) = Some inst
      /\ forall func_name argc argv,
          exists env rest,
            emitted
              (calls (world (execState
                               (load tiny_wasm 8%N 4096%N
                                     WAMR_DEFAULT_HEAP_SIZE) frame_new)))
              (calls (world (execState
                               (callFunctionRaw func_name argc argv)
                               (execState
                                  (load tiny_wasm 8%N 4096%N
                                        WAMR_DEFAULT_HEAP_SIZE)
                                  frame_new))))
            = E_wasm_runtime_create_exec_env inst 4096%N env :: rest.
Proof.
  assert (H1 : evalState (load tiny_wasm 8%N 4096%N WAMR_DEFAULT_HEAP_SIZE)
                         frame_new = true) by (vm_compute; reflexivity).
  split; [exact H1 | ].
  exact (load_stack_size_reaches_exec_env
           frame_new tiny_wasm 8%N 4096%N WAMR_DEFAULT_HEAP_SIZE H1).
Defined.

Lemma raw_api_thread_behaviour_witness :
  (0 < 100)%Z
  /\ fst (evalState (callFunctionRaw "add" 2%N (Some [0; 1]%N)) frame_new)
     = false
  /\ execState (raw_api_thread 100%Z) frame_new
     = execState (callFunctionRaw "add" 2%N (Some [0; 1]%N)) frame_new.
Proof.
  assert (H1 : (0 < 100)%Z) by reflexivity.
  assert (H2 : fst (evalState (callFunctionRaw "add" 2%N (Some [0; 1]%N))
                              frame_new) = false)
    by (vm_compute; reflexivity).
  split; [exact H1 | split; [exact H2 | ] ].
  destruct (raw_api_thread_behaviour frame_new 100%Z) as (_ & _ & H).
  exact (H H1 H2).
Defined.

Lemma testWithHeapSize_releases_everything_witness :
  initialized world0 = false
  /\ global_heap_buf world0 = None
  /\ resources
       (calls (execState (testWithHeapSize (64 * 1024)%N (32 * 1024)%N)
                         world0))
     = resources (calls world0).
Proof.
  assert (H1 : initialized world0 = false) by reflexivity.
  assert (H2 : global_heap_buf world0 = None) by reflexivity.
  split; [exact H1 | split; [exact H2 | ] ].
  destruct (testWithHeapSize_releases_everything
              world0 (64 * 1024)%N (32 * 1024)%N H1 H2) as (_ & _ & _ & H).
  exact H.
Defined.

(** The memory test on the small platform: the runtime comes up, the
    module loads, the five calls run (the platform exports neither
    function, so each fails after creating and destroying its
    environment), and everything is torn down. *)
Example testWithHeapSize_trace_length :
  List.length
    (calls (execState (testWithHeapSize (64 * 1024)%N (32 * 1024)%N) world0))
  = 53.
Proof. vm_compute. reflexivity. Qed.
